(** * finalExpress customer client: location, availability and install flows

    A shallow embedding of the decision logic of the React client:
    - [PWA]            : src/Frontend/src/hooks/usePWAStatus.ts
    - [InstallPWAButton] : src/Frontend/src/components/InstallPWAButton.tsx
    - [LocationFilter] : the LocationBasedServiceFilter component
    - [NearbyMap]      : src/Frontend/src/components/NearbyWashermenMap.tsx
    - [NearbySlots]    : the NearbyWashermenWithSlots component

    Component state (the [useState] cells), [localStorage] and the effects a
    handler performs (network requests, callbacks to the parent, console
    output) are threaded explicitly through a state monad.  What the outside
    world answers to an awaited request is an argument of the handler, and a
    handler runs to completion before the next one starts.  Values a handler
    reads from its closure are read from the state it starts in.  The two
    [useEffect] bodies of the location component are separate steps
    ([onMount], [onCustomerLocationChange]).

    JavaScript numbers are IEEE-754 doubles ([float]); strings are ASCII
    strings, so the emoji that prefix some console messages are left out.
    Responses have the shape their TypeScript interfaces declare, and the
    callbacks of the parent do not throw. *)

From Stdlib Require Import Floats ZArith Lia Ascii String.
From stdpp Require Import base option list strings pretty gmap.

(** ** JavaScript values and coercions *)
Module JS.

(** [!!s] for a string: only the empty string is falsy. *)
Definition truthy_string (s : string) : bool :=
  match s with
  | EmptyString => false
  | String _ _ => true
  end.

(** [!!x] for a possibly undefined / null string. *)
Definition truthy_ostring (s : option string) : bool :=
  match s with
  | None => false
  | Some v => truthy_string v
  end.

(** [!!x] for a number: [0], [-0] and [NaN] are falsy. *)
Definition truthy_number (x : float) : bool :=
  negb (PrimFloat.eqb x 0 || PrimFloat.is_nan x).

(** [a || d] where [a] is a possibly undefined string. *)
Definition or_string (a : option string) (d : string) : string :=
  match a with
  | Some v => if truthy_string v then v else d
  | None => d
  end.

(** [a || b] between two possibly undefined strings. *)
Definition or_else (a b : option string) : option string :=
  if truthy_ostring a then a else b.

(** [a || d] where [a] is a possibly undefined number. *)
Definition or_number (a : option float) (d : float) : float :=
  match a with
  | Some v => if truthy_number v then v else d
  | None => d
  end.

(** White space stripped by [String.prototype.trim] (ASCII part). *)
Definition is_whitespace (c : ascii) : bool :=
  let n := Ascii.nat_of_ascii c in
  ((9 <=? n)%nat && (n <=? 13)%nat) || (n =? 32)%nat.

Fixpoint trimStart (s : string) : string :=
  match s with
  | EmptyString => EmptyString
  | String c s' => if is_whitespace c then trimStart s' else s
  end.

Fixpoint trimEnd (s : string) : string :=
  match s with
  | EmptyString => EmptyString
  | String c s' =>
      let t := trimEnd s' in
      if is_whitespace c && negb (truthy_string t) then EmptyString
      else String c t
  end.

Definition trim (s : string) : string := trimEnd (trimStart s).

(** [!x?.trim()] for an optional string field. *)
Definition blank (s : option string) : bool :=
  match s with
  | None => true
  | Some v => negb (truthy_string (trim v))
  end.

(** [xs.filter(Boolean).join(sep)] over possibly undefined strings. *)
Definition filter_Boolean (xs : list (option string)) : list string :=
  omap (fun x => match x with
                 | Some v => if truthy_string v then Some v else None
                 | None => None
                 end) xs.

Fixpoint join (sep : string) (xs : list string) : string :=
  match xs with
  | [] => ""
  | [x] => x
  | x :: rest => x +:+ sep +:+ join sep rest
  end.

(** The values handed to [JSON.stringify] and sent as request bodies. *)
#[warnings="-register-all"]
Inductive value :=
| Undefined
| Null
| Num (x : float)
| Str (s : string)
| Obj (fields : list (string * value)).

Definition of_ostring (s : option string) : value :=
  match s with
  | Some v => Str v
  | None => Undefined
  end.

End JS.

(** ** A state monad over a world [W] *)
Module StateM.

Definition M (W A : Type) : Type := W -> A * W.

#[export] Instance M_ret {W} : MRet (M W) := fun A a w => (a, w).

#[export] Instance M_bind {W} : MBind (M W) :=
  fun A B k m w => let (a, w') := m w in k a w'.

Definition gets {W A} (f : W -> A) : M W A := fun w => (f w, w).

Definition modify {W} (f : W -> W) : M W unit := fun w => (tt, f w).

Definition exec {W A} (m : M W A) (w : W) : W := snd (m w).

Definition eval {W A} (m : M W A) (w : W) : A := fst (m w).

End StateM.

Import StateM.

(** ** usePWAStatus.ts *)
Module PWA.

(** The captured [beforeinstallprompt] event. *)
Inductive BeforeInstallPromptEvent := PromptEvent (id : nat).

(** The [useState] cells of the hook. *)
Record State := mkState {
  isInstalled : bool;
  isStandalone : bool;
  canInstall : bool;
  deferredPrompt : option BeforeInstallPromptEvent
}.

Inductive Effect :=
| PromptShown (e : BeforeInstallPromptEvent)
| PreventDefault (e : BeforeInstallPromptEvent)
| ConsoleLog (msg : string).

Record World := mkWorld {
  st : State;
  localStorage : gmap string string;
  effects : list Effect
}.

(** What the platform reports when [checkIfInstalled] runs. *)
Record Platform := mkPlatform {
  displayModeStandalone : bool;   (* matchMedia('(display-mode: standalone)').matches *)
  navigatorStandalone : bool      (* navigator.standalone === true *)
}.

Definition initial : State := mkState false false false None.

Definition on_st (f : State -> State) : M World unit :=
  modify (fun w => mkWorld (f (st w)) (localStorage w) (effects w)).

Definition setIsInstalled (v : bool) : M World unit :=
  on_st (fun s => mkState v (isStandalone s) (canInstall s) (deferredPrompt s)).
Definition setIsStandalone (v : bool) : M World unit :=
  on_st (fun s => mkState (isInstalled s) v (canInstall s) (deferredPrompt s)).
Definition setCanInstall (v : bool) : M World unit :=
  on_st (fun s => mkState (isInstalled s) (isStandalone s) v (deferredPrompt s)).
Definition setDeferredPrompt (v : option BeforeInstallPromptEvent) : M World unit :=
  on_st (fun s => mkState (isInstalled s) (isStandalone s) (canInstall s) v).

Definition getItem (k : string) : M World (option string) :=
  gets (fun w => localStorage w !! k).
Definition setItem (k v : string) : M World unit :=
  modify (fun w => mkWorld (st w) (<[k := v]> (localStorage w)) (effects w)).
Definition perform (e : Effect) : M World unit :=
  modify (fun w => mkWorld (st w) (localStorage w) (effects w ++ [e])).

Definition checkIfInstalled (p : Platform) : M World unit :=
  let isStandaloneMode := displayModeStandalone p || navigatorStandalone p in
  setIsStandalone isStandaloneMode ;;
  flag ← getItem "pwa-installed";
  let isInstalledPWA :=
    isStandaloneMode || bool_decide (flag = Some "true") in
  setIsInstalled isInstalledPWA.

Definition handleBeforeInstallPrompt (e : BeforeInstallPromptEvent) : M World unit :=
  perform (ConsoleLog "beforeinstallprompt fired") ;;
  perform (PreventDefault e) ;;
  setDeferredPrompt (Some e) ;;
  setCanInstall true.

Definition handleAppInstalled : M World unit :=
  perform (ConsoleLog "App was installed") ;;
  setIsInstalled true ;;
  setCanInstall false ;;
  setItem "pwa-installed" "true".

(** How a call of the async [installPWA] ends. *)
Inductive Completion :=
| Returned
| Thrown (message : string).

(** [installPWA]; [outcome] is what [deferredPrompt.userChoice] resolves to. *)
Definition installPWA (outcome : string) : M World Completion :=
  prompt ← gets (fun w => deferredPrompt (st w));
  match prompt with
  | None => mret (Thrown "PWA install prompt not available")
  | Some e =>
      perform (PromptShown e) ;;
      (if bool_decide (outcome = "accepted") then
         perform (ConsoleLog "User accepted the PWA install") ;;
         setIsInstalled true ;;
         setCanInstall false ;;
         setItem "pwa-installed" "true"
       else
         perform (ConsoleLog "User dismissed the PWA install")) ;;
      setDeferredPrompt None ;;
      mret Returned
  end.

(** *** Device detection *)

(** Lower case of an ASCII letter, as the [i] flag of a regular expression
    compares characters. *)
Definition lower (c : ascii) : ascii :=
  let n := Ascii.nat_of_ascii c in
  if ((65 <=? n)%nat && (n <=? 90)%nat)%bool
  then Ascii.ascii_of_nat (n + 32) else c.

(** [s] starts with the literal [p], letter case ignored. *)
Fixpoint prefix_ci (p s : string) : bool :=
  match p, s with
  | EmptyString, _ => true
  | String _ _, EmptyString => false
  | String a p', String b s' =>
      bool_decide (lower a = lower b) && prefix_ci p' s'
  end.

(** [/p/i.test(s)] for a literal [p]. *)
Fixpoint test_ci (p s : string) : bool :=
  prefix_ci p s ||
  match s with
  | EmptyString => false
  | String _ s' => test_ci p s'
  end.

(** [/p1|p2|.../i.test(s)] for literals. *)
Definition test_any_ci (ps : list string) (s : string) : bool :=
  existsb (fun p => test_ci p s) ps.

Definition isMobile (userAgent : string) : bool :=
  test_any_ci ["Android"; "webOS"; "iPhone"; "iPad"; "iPod"; "BlackBerry";
               "IEMobile"; "Opera Mini"] userAgent.

Definition isAndroid (userAgent : string) : bool :=
  test_any_ci ["Android"] userAgent.

Definition isIOS (userAgent : string) : bool :=
  test_any_ci ["iPhone"; "iPad"; "iPod"] userAgent.

(** *** The life of the hook *)

(** What can happen to a mounted hook: the check at mount and after the
    delay, the two window events, and a call of [installPWA]. *)
Inductive HookEvent :=
| CheckIfInstalled (p : Platform)
| BeforeInstallPrompt (e : BeforeInstallPromptEvent)
| AppInstalled
| InstallPWA (outcome : string).

Definition handle (ev : HookEvent) : M World unit :=
  match ev with
  | CheckIfInstalled p => checkIfInstalled p
  | BeforeInstallPrompt e => handleBeforeInstallPrompt e
  | AppInstalled => handleAppInstalled
  | InstallPWA outcome => installPWA outcome ;; mret tt
  end.

Fixpoint handleAll (evs : list HookEvent) (w : World) : World :=
  match evs with
  | [] => w
  | ev :: rest => handleAll rest (exec (handle ev) w)
  end.

End PWA.

(** ** InstallPWAButton.tsx *)
Module InstallPWAButton.

(** What the component renders when it renders anything. *)
Record Panel := mkPanel {
  installButton : bool;     (* "Install PWA" *)
  downloadButton : bool;    (* "Download Android App" *)
  iosInstructions : bool    (* "Tap Share, Add to Home Screen" *)
}.

(** The component's output for the values the hook returns; [None] is the
    [return null] of an installed app. *)
Definition render (isInstalled canInstall isAndroid isIOS : bool) : option Panel :=
  if isInstalled then None
  else Some (mkPanel canInstall
                     (isAndroid || negb canInstall)
                     (isIOS && negb canInstall)).

Definition renderFor (userAgent : string) (s : PWA.State) : option Panel :=
  render (PWA.isInstalled s) (PWA.canInstall s)
         (PWA.isAndroid userAgent) (PWA.isIOS userAgent).

(** [handlePWAInstall]; the result is the text of the [alert], if one is
    raised. *)
Definition handlePWAInstall (outcome : string) : M PWA.World (option string) :=
  r ← PWA.installPWA outcome;
  match r with
  | PWA.Returned => mret None
  | PWA.Thrown _ =>
      mret (Some "PWA install not available. You can download the Android APK instead.")
  end.

End InstallPWAButton.

(** ** The LocationBasedServiceFilter component *)
Module LocationFilter.

Record LatLng := mkLatLng { ll_lat : float; ll_lng : float }.

Record Location := mkLocation {
  lat : float;
  lng : float;
  address : option string
}.

Record Washerman := mkWasherman {
  w_id : string;
  w_name : string;
  w_contact : string;
  w_range : float;
  w_location : LatLng;
  w_distance : option float
}.

Record ServiceOption := mkServiceOption {
  opt_id : string;
  opt_name : string;
  opt_price : float
}.

Record Service := mkService {
  svc_id : string;
  svc_title : string;
  svc_name : string;
  svc_category : string;
  svc_description : string;
  svc_image : string;
  svc_options : list ServiceOption;
  svc_washerman : Washerman
}.

Record Availability := mkAvailability {
  servicesAvailable : bool;
  totalServices : float;
  totalWashermen : float;
  inRangeWashermen : float;
  outOfRangeWashermen : float
}.

Record ServiceAvailabilityResponse := mkResponse {
  success : bool;
  resp_customerLocation : Location;
  availability : Availability;
  services : list Service;
  message : string;
  suggestion : option string
}.

Record AddressDetails := mkAddressDetails {
  houseNumber : option string;
  street : option string;
  landmark : option string;
  city : option string;
  state : option string;
  zip : option string
}.

(** The object literal [{}]. *)
Definition noAddressDetails : AddressDetails :=
  mkAddressDetails None None None None None None.

(** The [address] component of a Nominatim answer, as far as it is read. *)
Record NominatimAddress := mkNominatimAddress {
  road : option string;
  suburb : option string;
  neighbourhood : option string;
  house_number : option string;
  na_landmark : option string;
  public_building : option string;
  na_city : option string;
  town : option string;
  village : option string;
  county : option string;
  na_state : option string;
  postcode : option string
}.

(** One entry of the forward-geocoding (search) answer. *)
Record SearchResult := mkSearchResult {
  sr_lat : string;
  sr_lon : string;
  sr_display_name : string;
  sr_address : option NominatimAddress
}.

(** The reverse-geocoding answer. *)
Record ReverseResult := mkReverseResult {
  rr_display_name : option string;
  rr_address : option NominatimAddress
}.

(** A rejected axios request: [err.response?.data?.message] is all that is
    read of it. *)
Record ErrorBody := mkErrorBody { eb_message : option string }.
Record ErrorResponse := mkErrorResponse {
  status : Z;
  data : option ErrorBody
}.
Record AxiosError := mkAxiosError { response : option ErrorResponse }.

(** How an awaited promise settles. *)
Inductive Settled (A E : Type) :=
| Resolved (a : A)
| Rejected (e : E).
Arguments Resolved {A E} a.
Arguments Rejected {A E} e.

(** A thrown [Error]: only [err.message] is read. *)
Record JsError := mkJsError { err_message : option string }.

(** What a handler does to the outside, in order. *)
Inductive Event :=
| AxiosPost (url : string) (body : JS.value) (bearer : string)
| NominatimSearch (q : string)
| NominatimReverse (la lo : float)
| GetCurrentLocation
| OnServicesFound (found : list Service)
| OnNoServices
| OnLocationSet (location : Location)
| ConsoleError (what : string)
| ConsoleWarn (what : string).

(** The [useState] cells of the component. *)
Record State := mkState {
  customerLocation : option Location;
  isDetectingLocation : bool;
  isCheckingAvailability : bool;
  availabilityData : option ServiceAvailabilityResponse;
  error : string;
  manualAddress : string;
  showManualInput : bool;
  showMap : bool;
  mapCenter : LatLng;
  selectedMapLocation : option Location;
  showAddressForm : bool;
  addressDetails : AddressDetails;
  addressErrors : gmap string string
}.

(** One record update per [useState] setter. *)
Definition set_customerLocation (v : option Location) (s : State) : State :=
  mkState v (isDetectingLocation s) (isCheckingAvailability s)
    (availabilityData s) (error s) (manualAddress s) (showManualInput s)
    (showMap s) (mapCenter s) (selectedMapLocation s) (showAddressForm s)
    (addressDetails s) (addressErrors s).
Definition set_isDetectingLocation (v : bool) (s : State) : State :=
  mkState (customerLocation s) v (isCheckingAvailability s)
    (availabilityData s) (error s) (manualAddress s) (showManualInput s)
    (showMap s) (mapCenter s) (selectedMapLocation s) (showAddressForm s)
    (addressDetails s) (addressErrors s).
Definition set_isCheckingAvailability (v : bool) (s : State) : State :=
  mkState (customerLocation s) (isDetectingLocation s) v
    (availabilityData s) (error s) (manualAddress s) (showManualInput s)
    (showMap s) (mapCenter s) (selectedMapLocation s) (showAddressForm s)
    (addressDetails s) (addressErrors s).
Definition set_availabilityData (v : option ServiceAvailabilityResponse) (s : State) : State :=
  mkState (customerLocation s) (isDetectingLocation s)
    (isCheckingAvailability s) v (error s) (manualAddress s)
    (showManualInput s) (showMap s) (mapCenter s) (selectedMapLocation s)
    (showAddressForm s) (addressDetails s) (addressErrors s).
Definition set_error (v : string) (s : State) : State :=
  mkState (customerLocation s) (isDetectingLocation s)
    (isCheckingAvailability s) (availabilityData s) v (manualAddress s)
    (showManualInput s) (showMap s) (mapCenter s) (selectedMapLocation s)
    (showAddressForm s) (addressDetails s) (addressErrors s).
Definition set_manualAddress (v : string) (s : State) : State :=
  mkState (customerLocation s) (isDetectingLocation s)
    (isCheckingAvailability s) (availabilityData s) (error s) v
    (showManualInput s) (showMap s) (mapCenter s) (selectedMapLocation s)
    (showAddressForm s) (addressDetails s) (addressErrors s).
Definition set_showManualInput (v : bool) (s : State) : State :=
  mkState (customerLocation s) (isDetectingLocation s)
    (isCheckingAvailability s) (availabilityData s) (error s)
    (manualAddress s) v (showMap s) (mapCenter s) (selectedMapLocation s)
    (showAddressForm s) (addressDetails s) (addressErrors s).
Definition set_showMap (v : bool) (s : State) : State :=
  mkState (customerLocation s) (isDetectingLocation s)
    (isCheckingAvailability s) (availabilityData s) (error s)
    (manualAddress s) (showManualInput s) v (mapCenter s)
    (selectedMapLocation s) (showAddressForm s) (addressDetails s)
    (addressErrors s).
Definition set_mapCenter (v : LatLng) (s : State) : State :=
  mkState (customerLocation s) (isDetectingLocation s)
    (isCheckingAvailability s) (availabilityData s) (error s)
    (manualAddress s) (showManualInput s) (showMap s) v
    (selectedMapLocation s) (showAddressForm s) (addressDetails s)
    (addressErrors s).
Definition set_selectedMapLocation (v : option Location) (s : State) : State :=
  mkState (customerLocation s) (isDetectingLocation s)
    (isCheckingAvailability s) (availabilityData s) (error s)
    (manualAddress s) (showManualInput s) (showMap s) (mapCenter s) v
    (showAddressForm s) (addressDetails s) (addressErrors s).
Definition set_showAddressForm (v : bool) (s : State) : State :=
  mkState (customerLocation s) (isDetectingLocation s)
    (isCheckingAvailability s) (availabilityData s) (error s)
    (manualAddress s) (showManualInput s) (showMap s) (mapCenter s)
    (selectedMapLocation s) v (addressDetails s) (addressErrors s).
Definition set_addressDetails (v : AddressDetails) (s : State) : State :=
  mkState (customerLocation s) (isDetectingLocation s)
    (isCheckingAvailability s) (availabilityData s) (error s)
    (manualAddress s) (showManualInput s) (showMap s) (mapCenter s)
    (selectedMapLocation s) (showAddressForm s) v (addressErrors s).
Definition set_addressErrors (v : gmap string string) (s : State) : State :=
  mkState (customerLocation s) (isDetectingLocation s)
    (isCheckingAvailability s) (availabilityData s) (error s)
    (manualAddress s) (showManualInput s) (showMap s) (mapCenter s)
    (selectedMapLocation s) (showAddressForm s) (addressDetails s) v.

Record World := mkWorld {
  ui : State;
  localStorage : gmap string string;
  trace : list Event
}.

Definition on_ui (f : State -> State) : M World unit :=
  modify (fun w => mkWorld (f (ui w)) (localStorage w) (trace w)).

Definition getItem (k : string) : M World (option string) :=
  gets (fun w => localStorage w !! k).
Definition setItem (k v : string) : M World unit :=
  modify (fun w => mkWorld (ui w) (<[k := v]> (localStorage w)) (trace w)).
Definition removeItem (k : string) : M World unit :=
  modify (fun w => mkWorld (ui w) (delete k (localStorage w)) (trace w)).
Definition perform (e : Event) : M World unit :=
  modify (fun w => mkWorld (ui w) (localStorage w) (trace w ++ [e])).

Definition setCustomerLocation (v : option Location) : M World unit :=
  on_ui (set_customerLocation v).
Definition setIsDetectingLocation (v : bool) : M World unit :=
  on_ui (set_isDetectingLocation v).
Definition setIsCheckingAvailability (v : bool) : M World unit :=
  on_ui (set_isCheckingAvailability v).
Definition setAvailabilityData (v : option ServiceAvailabilityResponse) : M World unit :=
  on_ui (set_availabilityData v).
Definition setError (v : string) : M World unit :=
  on_ui (set_error v).
Definition setManualAddress (v : string) : M World unit :=
  on_ui (set_manualAddress v).
Definition setShowManualInput (v : bool) : M World unit :=
  on_ui (set_showManualInput v).
Definition setShowMap (v : bool) : M World unit :=
  on_ui (set_showMap v).
Definition setMapCenter (v : LatLng) : M World unit :=
  on_ui (set_mapCenter v).
Definition setSelectedMapLocation (v : option Location) : M World unit :=
  on_ui (set_selectedMapLocation v).
Definition setShowAddressForm (v : bool) : M World unit :=
  on_ui (set_showAddressForm v).
Definition setAddressDetails (v : AddressDetails) : M World unit :=
  on_ui (set_addressDetails v).
Definition setAddressErrors (v : gmap string string) : M World unit :=
  on_ui (set_addressErrors v).

Definition Location_to_value (l : Location) : JS.value :=
  JS.Obj [("lat", JS.Num (lat l)); ("lng", JS.Num (lng l));
          ("address", JS.of_ostring (address l))].

Definition deriveAddressDetails (addr : option NominatimAddress) : AddressDetails :=
  match addr with
  | None => noAddressDetails
  | Some addr =>
      let streetParts :=
        JS.filter_Boolean [road addr; suburb addr; neighbourhood addr] in
      mkAddressDetails
        (Some (JS.or_string (house_number addr) ""))
        (Some (JS.join ", " streetParts))
        (Some (JS.or_string (JS.or_else (na_landmark addr) (public_building addr)) ""))
        (Some (JS.or_string
                 (JS.or_else (JS.or_else (JS.or_else (na_city addr) (town addr))
                                (village addr)) (county addr)) ""))
        (Some (JS.or_string (na_state addr) ""))
        (Some (JS.or_string (postcode addr) ""))
  end.

(** [newErrors] of [validateAddressDetails], for the details of the render. *)
Definition addressErrorsOf (d : AddressDetails) : gmap string string :=
  let e0 : gmap string string := ∅ in
  let e1 := if JS.blank (houseNumber d)
            then <["houseNumber" := "House/Flat/Block No. is required"]> e0 else e0 in
  let e2 := if JS.blank (street d)
            then <["street" := "Street/Area is required"]> e1 else e1 in
  let e3 := if JS.blank (city d)
            then <["city" := "City is required"]> e2 else e2 in
  let e4 := if JS.blank (state d)
            then <["state" := "State is required"]> e3 else e3 in
  let e5 := if JS.blank (zip d)
               || negb (bool_decide (String.length <$> zip d = Some 6))
            then <["zip" := "Valid 6-digit pincode is required"]> e4 else e4 in
  e5.

Definition validateAddressDetails : M World bool :=
  d ← gets (fun w => addressDetails (ui w));
  let newErrors := addressErrorsOf d in
  setAddressErrors newErrors ;;
  mret (bool_decide (size newErrors = 0)).

Section Builtins.

(** Built-ins of the platform that are not unfolded here. *)
Variable JSON_stringify : JS.value -> string.
Variable parseFloat : string -> float.
Variable toFixed : float -> nat -> string.

(** [JSON.parse] of a saved location; [None] when it throws. *)
Variable JSON_parse : string -> option Location.

Definition detectCurrentLocation
    (geo : Settled Location JsError) (rev : Settled ReverseResult unit)
  : M World unit :=
  setIsDetectingLocation true ;;
  setError "" ;;
  perform GetCurrentLocation ;;
  match geo with
  | Resolved location =>
      setCustomerLocation (Some location) ;;
      perform (OnLocationSet location) ;;
      perform (NominatimReverse (lat location) (lng location)) ;;
      match rev with
      | Resolved data => setAddressDetails (deriveAddressDetails (rr_address data))
      | Rejected _ =>
          perform (ConsoleWarn "Could not get detailed address info:") ;;
          setAddressDetails noAddressDetails
      end ;;
      setShowAddressForm true ;;
      setItem "customerLocation" (JSON_stringify (Location_to_value location))
  | Rejected err =>
      perform (ConsoleError "Location detection error:") ;;
      setError (JS.or_string (err_message err)
                  "Unable to detect your location. Please try manual address input.") ;;
      setShowManualInput true
  end ;;
  setIsDetectingLocation false.

Definition detailedAddressOf (location : Location) (details : AddressDetails) : JS.value :=
  JS.Obj [("houseNo", JS.Str (JS.or_string (houseNumber details) ""));
          ("street", JS.Str (JS.or_string (street details) ""));
          ("landmark", JS.Str (JS.or_string (landmark details) ""));
          ("city", JS.Str (JS.or_string (city details) ""));
          ("state", JS.Str (JS.or_string (state details) ""));
          ("pincode", JS.Str (JS.or_string (zip details) ""));
          ("fullAddress",
            JS.Str (JS.join ", "
              (JS.filter_Boolean [houseNumber details; street details;
                 landmark details; city details; state details; zip details])));
          ("coordinates",
            JS.Obj [("lat", JS.Num (lat location)); ("lng", JS.Num (lng location))])].

Definition saveLocationToBackend
    (post : Settled unit AxiosError)
    (location : Location) (details : option AddressDetails)
  : M World unit :=
  token ← getItem "token";
  if JS.truthy_ostring token then
    let detailedAddress := detailedAddressOf location <$> details in
    perform (AxiosPost "/api/user/location"
      (JS.Obj [("lat", JS.Num (lat location));
               ("lng", JS.Num (lng location));
               ("address",
                 match details with
                 | Some d =>
                     JS.Obj [("street",
                               JS.Str (JS.join ", "
                                 (JS.filter_Boolean
                                    [houseNumber d; street d; landmark d])));
                             ("city", JS.of_ostring (city d));
                             ("state", JS.of_ostring (state d));
                             ("zip", JS.of_ostring (zip d))]
                 | None => JS.of_ostring (address location)
                 end);
               ("deliveryAddress", default JS.Null detailedAddress)])
      (default "" token)) ;;
    match post with
    | Resolved _ =>
        match detailedAddress with
        | Some da => setItem "deliveryAddress" (JSON_stringify da)
        | None => mret tt
        end
    | Rejected _ =>
        perform (ConsoleError "Failed to save location to backend:")
    end
  else mret tt.

Definition checkServiceAvailability
    (post : Settled ServiceAvailabilityResponse AxiosError)
    (location : Location)
  : M World unit :=
  setIsCheckingAvailability true ;;
  setError "" ;;
  token ← getItem "token";
  if JS.truthy_ostring token then
    perform (AxiosPost "/api/check-availability"
               (Location_to_value location) (default "" token)) ;;
    match post with
    | Resolved data =>
        setAvailabilityData (Some data) ;;
        if servicesAvailable (availability data)
        then perform (OnServicesFound (services data))
        else perform OnNoServices
    | Rejected err =>
        perform (ConsoleError "Error checking service availability:") ;;
        setError (JS.or_string ((response err ≫= data) ≫= eb_message)
                    "Failed to check service availability") ;;
        perform OnNoServices
    end ;;
    setIsCheckingAvailability false
  else
    setError "Please log in to check service availability" ;;
    setIsCheckingAvailability false.

(** The effect that runs when the component mounts ([startInMap] is a prop). *)
Definition onMount
    (startInMap : bool)
    (check : Settled ServiceAvailabilityResponse AxiosError)
  : M World unit :=
  savedLocation ← getItem "customerLocation";
  (if JS.truthy_ostring savedLocation then
     match JSON_parse (default "" savedLocation) with
     | Some location =>
         setCustomerLocation (Some location) ;;
         if negb startInMap then
           perform (OnLocationSet location) ;;
           checkServiceAvailability check location
         else mret tt
     | None => perform (ConsoleError "Error parsing saved location:")
     end
   else mret tt) ;;
  if startInMap then
    setShowMap true ;;
    if JS.truthy_ostring savedLocation then
      match JSON_parse (default "" savedLocation) with
      | Some location => setMapCenter (mkLatLng (lat location) (lng location))
      | None => mret tt
      end
    else mret tt
  else mret tt.

(** The effect that runs when [customerLocation] has changed. *)
Definition onCustomerLocationChange
    (check : Settled ServiceAvailabilityResponse AxiosError)
  : M World unit :=
  customerLocation ← gets (fun w => customerLocation (ui w));
  match customerLocation with
  | Some customerLocation => checkServiceAvailability check customerLocation
  | None => mret tt
  end.

Definition handleManualAddressSubmit
    (geocode : Settled (list SearchResult) unit)
  : M World unit :=
  manualAddress ← gets (fun w => manualAddress (ui w));
  if negb (JS.truthy_string (JS.trim manualAddress)) then
    setError "Please enter an address"
  else
    setIsCheckingAvailability true ;;
    setError "" ;;
    perform (NominatimSearch manualAddress) ;;
    match geocode with
    | Resolved [] =>
        setError "Address not found. Please try a different address." ;;
        setIsCheckingAvailability false
    | Resolved (result :: _) =>
        let location :=
          mkLocation (parseFloat (sr_lat result)) (parseFloat (sr_lon result))
                     (Some (sr_display_name result)) in
        setCustomerLocation (Some location) ;;
        perform (OnLocationSet location) ;;
        setAddressDetails (deriveAddressDetails (sr_address result)) ;;
        setShowAddressForm true ;;
        setItem "customerLocation" (JSON_stringify (Location_to_value location)) ;;
        setShowManualInput false
    | Rejected _ =>
        perform (ConsoleError "Error geocoding address:") ;;
        setError "Failed to process address. Please try again." ;;
        setIsCheckingAvailability false
    end.

Definition resetLocation : M World unit :=
  setCustomerLocation None ;;
  setAvailabilityData None ;;
  setError "" ;;
  setManualAddress "" ;;
  setShowManualInput false ;;
  setShowMap false ;;
  setSelectedMapLocation None ;;
  removeItem "customerLocation".

Definition handleMapClick
    (latLng : option LatLng) (rev : Settled ReverseResult unit)
  : M World unit :=
  match latLng with
  | Some p =>
      let lat := ll_lat p in
      let lng := ll_lng p in
      let label := toFixed lat 4 +:+ ", " +:+ toFixed lng 4 in
      perform (NominatimReverse lat lng) ;;
      match rev with
      | Resolved data =>
          let location :=
            mkLocation lat lng (Some (JS.or_string (rr_display_name data) label)) in
          setSelectedMapLocation (Some location) ;;
          setAddressDetails (deriveAddressDetails (rr_address data))
      | Rejected _ =>
          perform (ConsoleError "Error getting address:") ;;
          let location := mkLocation lat lng (Some label) in
          setSelectedMapLocation (Some location) ;;
          setAddressDetails noAddressDetails
      end
  | None => mret tt
  end.

Definition confirmMapLocation : M World unit :=
  selectedMapLocation ← gets (fun w => selectedMapLocation (ui w));
  match selectedMapLocation with
  | Some location =>
      setCustomerLocation (Some location) ;;
      perform (OnLocationSet location) ;;
      setShowAddressForm true
  | None => mret tt
  end.

(** The [onClick] handler of the "Save and Continue" button.  The button is
    rendered only while [customerLocation] is set. *)
Definition onSaveAndContinue
    (save : Settled unit AxiosError)
    (check : Settled ServiceAvailabilityResponse AxiosError)
  : M World unit :=
  customerLocation ← gets (fun w => customerLocation (ui w));
  addressDetails ← gets (fun w => addressDetails (ui w));
  match customerLocation with
  | Some customerLocation =>
      valid ← validateAddressDetails;
      if negb valid then mret tt
      else
        saveLocationToBackend save customerLocation (Some addressDetails) ;;
        checkServiceAvailability check customerLocation ;;
        setShowAddressForm false ;;
        setShowMap false ;;
        setSelectedMapLocation None
  | None => mret tt
  end.

End Builtins.

(** The requests of a trace that save the location to the backend. *)
Definition isSaveCall (e : Event) : bool :=
  match e with
  | AxiosPost url _ _ => bool_decide (url = "/api/user/location")
  | _ => false
  end.

(** The two failure conditions the specification names for a rejected
    availability request, and the status it attaches each to.  Used only to
    compare with what [checkServiceAvailability] leaves behind. *)
Inductive Condition := Unauthenticated | AvailabilityCheckFailed.

Definition conditionOfStatus (status : Z) : Condition :=
  if bool_decide (status = 401%Z) then Unauthenticated
  else AvailabilityCheckFailed.

(** A request rejected with the given HTTP status and body message. *)
Definition rejectedWith (status : Z) (msg : option string)
  : Settled ServiceAvailabilityResponse AxiosError :=
  Rejected (mkAxiosError (Some (mkErrorResponse status (Some (mkErrorBody msg))))).

(** Classifiers of trace events, for counting. *)
Definition isAvailabilityCall (e : Event) : bool :=
  match e with
  | AxiosPost url _ _ => bool_decide (url = "/api/check-availability")
  | _ => false
  end.

Definition isAvailabilityCallback (e : Event) : bool :=
  match e with
  | OnServicesFound _ | OnNoServices => true
  | _ => false
  end.

Definition isLocationSet (e : Event) : bool :=
  match e with
  | OnLocationSet _ => true
  | _ => false
  end.

Definition isRequest (e : Event) : bool :=
  match e with
  | AxiosPost _ _ _ | NominatimSearch _ | NominatimReverse _ _
  | GetCurrentLocation => true
  | _ => false
  end.

End LocationFilter.

(** ** NearbyWashermenMap.tsx *)
Module NearbyMap.

Record Coordinates := mkCoordinates {
  lat : option float;
  lng : option float
}.

Record Washerman := mkWasherman {
  _id : string;
  name : string;
  contact : string;
  range : option float;
  location : option Coordinates
}.

Record LatLng := mkLatLng { c_lat : float; c_lng : float }.

(** What is drawn for one washerman: the marker and its range circle. *)
Record MarkerView := mkMarkerView {
  key : string;
  position : LatLng;
  markerFill : string;
  title : string;
  circleRadius : float;
  circleColor : string
}.

(** [washerman.range || 500] *)
Definition rangeOrDefault (washerman : Washerman) : float :=
  JS.or_number (range washerman) 500.

(** The radius as the specification words it: the declared range, 500 when
    none is declared.  Used only to compare with [rangeOrDefault]. *)
Definition declaredRangeOr500 (w : Washerman) : float :=
  default 500%float (range w).

(** [const inRange = distance <= (washerman.range || 500)] *)
Definition inRange (distance : float) (washerman : Washerman) : bool :=
  PrimFloat.leb distance (rangeOrDefault washerman).

(** The [.filter] before the [.map]: both coordinates are present. *)
Definition coordinatesOf (w : Washerman) : option LatLng :=
  l ← location w; la ← lat l; lo ← lng l; Some (mkLatLng la lo).

Section Imports.

(** [calculateDistance] of utils/locationUtils and [Number.prototype.toFixed]. *)
Variable calculateDistance : float -> float -> float -> float -> float.
Variable toFixed : float -> nat -> string.

Definition distanceTo (customerLocation : LatLng) (p : LatLng) : float :=
  calculateDistance (c_lat customerLocation) (c_lng customerLocation)
                    (c_lat p) (c_lng p).

Definition renderWasherman (customerLocation : LatLng) (washerman : Washerman)
  : option MarkerView :=
  p ← coordinatesOf washerman;
  let distance := distanceTo customerLocation p in
  let inRange := inRange distance washerman in
  let colour := if inRange then "#10b981" else "#6b7280" in
  Some (mkMarkerView (_id washerman) p colour
          (name washerman +:+ " - " +:+ toFixed distance 0 +:+ "m away")
          (rangeOrDefault washerman) colour).

Definition renderWashermen (customerLocation : LatLng) (washermen : list Washerman)
  : list MarkerView :=
  omap (renderWasherman customerLocation) washermen.

End Imports.

(** *** Fetching the washermen and the mount effect *)

(** The [useState] cells of the component. *)
Record State := mkState {
  customerLocation : option LatLng;
  washermen : list Washerman;
  error : option string;
  loading : bool;
  noWashermenFound : bool
}.

Definition initial : State := mkState None [] None true false.

Definition set_customerLocation (v : option LatLng) (s : State) : State :=
  mkState v (washermen s) (error s) (loading s) (noWashermenFound s).
Definition set_washermen (v : list Washerman) (s : State) : State :=
  mkState (customerLocation s) v (error s) (loading s) (noWashermenFound s).
Definition set_error (v : option string) (s : State) : State :=
  mkState (customerLocation s) (washermen s) v (loading s)
    (noWashermenFound s).
Definition set_loading (v : bool) (s : State) : State :=
  mkState (customerLocation s) (washermen s) (error s) v
    (noWashermenFound s).
Definition set_noWashermenFound (v : bool) (s : State) : State :=
  mkState (customerLocation s) (washermen s) (error s) (loading s) v.

(** What the component does to the outside, in order. *)
Inductive Event :=
| GetCurrentLocation
| SaveCustomerLocation (la lo : float)
| ApiFetchNearby (la lo : float) (token : option string)
| ConsoleLog (what : string)
| ConsoleError (what : string).

Record World := mkWorld {
  ui : State;
  localStorage : gmap string string;
  trace : list Event
}.

Definition on_ui (f : State -> State) : M World unit :=
  modify (fun w => mkWorld (f (ui w)) (localStorage w) (trace w)).
Definition getItem (k : string) : M World (option string) :=
  gets (fun w => localStorage w !! k).
Definition perform (e : Event) : M World unit :=
  modify (fun w => mkWorld (ui w) (localStorage w) (trace w ++ [e])).

Definition setCustomerLocation (v : option LatLng) : M World unit :=
  on_ui (set_customerLocation v).
Definition setWashermen (v : list Washerman) : M World unit :=
  on_ui (set_washermen v).
Definition setError (v : option string) : M World unit :=
  on_ui (set_error v).
Definition setLoading (v : bool) : M World unit :=
  on_ui (set_loading v).
Definition setNoWashermenFound (v : bool) : M World unit :=
  on_ui (set_noWashermenFound v).

(** The answer of [apiFetch], as far as it is read: [res.ok], [res.status]
    and how [res.json()] settles. *)
Record Response := mkResponse {
  ok : bool;
  status : Z;
  json : LocationFilter.Settled (list Washerman) LocationFilter.JsError
}.

(** The [catch] block of [fetchNearbyWashermen]. *)
Definition fetchFailed (err : LocationFilter.JsError) : M World unit :=
  perform (ConsoleError "Failed to fetch washermen:") ;;
  setError (Some (JS.or_string (LocationFilter.err_message err)
                    "Failed to fetch nearby washermen. Please try again.")).

(** [fetchNearbyWashermen]; the token is put into the header whether or not
    one is stored. *)
Definition fetchNearbyWashermen
    (res : LocationFilter.Settled Response LocationFilter.JsError)
    (lat lng : float)
  : M World unit :=
  token ← getItem "token";
  perform (ConsoleLog "Fetching nearby washermen for coordinates:") ;;
  perform (ApiFetchNearby lat lng token) ;;
  match res with
  | LocationFilter.Resolved res =>
      if negb (ok res) then
        if bool_decide (status res = 401%Z) then
          fetchFailed (LocationFilter.mkJsError
                         (Some "Please sign in to view nearby washermen"))
        else
          fetchFailed (LocationFilter.mkJsError
                         (Some ("HTTP error! status: " +:+ pretty (status res))))
      else
        match json res with
        | LocationFilter.Resolved data =>
            perform (ConsoleLog "Received washermen data:") ;;
            if bool_decide (length data = 0) then
              perform (ConsoleLog "No washermen found in the area") ;;
              setNoWashermenFound true
            else
              perform (ConsoleLog ("Found " +:+ pretty (length data)
                                     +:+ " washermen in the area")) ;;
              setWashermen data
        | LocationFilter.Rejected err => fetchFailed err
        end
  | LocationFilter.Rejected err => fetchFailed err
  end.

(** The [catch] block of [getLocationAndSave]. *)
Definition locationFailed (err : LocationFilter.JsError) : M World unit :=
  perform (ConsoleError "Geolocation error:") ;;
  setError (Some (JS.or_string (LocationFilter.err_message err)
                    "Location access denied. Please enable GPS and refresh.")) ;;
  setLoading false.

(** [getLocationAndSave], the effect run at mount.  [getCurrentLocation] and
    [saveCustomerLocation] belong to utils/locationUtils; how their promises
    settle is given. *)
Definition getLocationAndSave
    (geo : LocationFilter.Settled LatLng LocationFilter.JsError)
    (save : LocationFilter.Settled unit LocationFilter.JsError)
    (res : LocationFilter.Settled Response LocationFilter.JsError)
  : M World unit :=
  perform GetCurrentLocation ;;
  match geo with
  | LocationFilter.Resolved location =>
      setCustomerLocation (Some location) ;;
      perform (SaveCustomerLocation (c_lat location) (c_lng location)) ;;
      match save with
      | LocationFilter.Resolved _ =>
          fetchNearbyWashermen res (c_lat location) (c_lng location) ;;
          setLoading false
      | LocationFilter.Rejected err => locationFailed err
      end
  | LocationFilter.Rejected err => locationFailed err
  end.

(** The screens of the component, in the order the render tests for them. *)
Inductive View :=
| LoadingMap
| ErrorScreen (message : string)
| NoLocation
| MapsFailed
| MapsLoading
| NoWashermenOverlay (customer : LatLng)
| MapWithMarkers (customer : LatLng) (markers : list MarkerView).

Section Render.

Variable calculateDistance : float -> float -> float -> float -> float.
Variable toFixed : float -> nat -> string.

(** The render; [isLoaded] and [loadError] come from [useJsApiLoader]. *)
Definition render (isLoaded loadError : bool) (s : State) : View :=
  if loading s then LoadingMap
  else if JS.truthy_ostring (error s) then ErrorScreen (default "" (error s))
  else match customerLocation s with
       | None => NoLocation
       | Some customer =>
           if loadError then MapsFailed
           else if negb isLoaded then MapsLoading
           else if noWashermenFound s then NoWashermenOverlay customer
           else MapWithMarkers customer
                  (renderWashermen calculateDistance toFixed customer (washermen s))
       end.

End Render.

(** The requests for washermen in a trace. *)
Definition isFetch (e : Event) : bool :=
  match e with
  | ApiFetchNearby _ _ _ => true
  | _ => false
  end.

End NearbyMap.

(** ** The NearbyWashermenWithSlots component *)
Module NearbySlots.

Record Slot := mkSlot {
  timeRange : string;
  period : string;
  available : float;
  maxCapacity : float
}.

Record LatLng := mkLatLng { lat : float; lng : float }.

Record Washerman := mkWasherman {
  _id : string;
  name : string;
  contact : string;
  range : float;
  location : LatLng;
  isAvailable : option bool;
  availableSlots : option (list Slot);
  totalAvailableSlots : option float
}.

(** [const isAvailable = selectedDate ? washerman.isAvailable : true] *)
Definition isAvailableOn (selectedDate : string) (washerman : Washerman) : option bool :=
  if JS.truthy_string selectedDate then isAvailable washerman else Some true.

(** [const hasSlots = selectedDate ? (washerman.totalAvailableSlots || 0) > 0 : true] *)
Definition hasSlots (selectedDate : string) (washerman : Washerman) : bool :=
  if JS.truthy_string selectedDate
  then PrimFloat.ltb 0 (JS.or_number (totalAvailableSlots washerman) 0)
  else true.

(** The condition [isAvailable && hasSlots] as the views test it. *)
Definition availableWithSlots (selectedDate : string) (washerman : Washerman) : bool :=
  match isAvailableOn selectedDate washerman with
  | Some true => hasSlots selectedDate washerman
  | _ => false
  end.

(** The map marker and range circle of one washerman. *)
Record MarkerView := mkMarkerView {
  markerFill : string;
  title : string;
  circleColor : string
}.

Definition renderMarker (selectedDate : string) (washerman : Washerman) : MarkerView :=
  let ok := availableWithSlots selectedDate washerman in
  let colour := if ok then "#10b981" else "#6b7280" in
  mkMarkerView colour
    (name washerman +:+ " - " +:+ (if ok then "Available" else "Not Available"))
    colour.

(** The status line of a list entry, shown only when a date is selected. *)
Inductive StatusLine :=
| NoStatus
| StatusAvailable (slots : option float)
| StatusNotAvailable (date : string).

(** The list entry of one washerman. *)
Record ListItem := mkListItem {
  dimmed : bool;            (* the [opacity-50] class *)
  status : StatusLine;
  bookNow : bool            (* the "Book Now" button is rendered *)
}.

Definition renderListItem (selectedDate : string) (washerman : Washerman) : ListItem :=
  let ok := availableWithSlots selectedDate washerman in
  mkListItem
    (negb ok)
    (if JS.truthy_string selectedDate then
       if ok then StatusAvailable (totalAvailableSlots washerman)
       else StatusNotAvailable selectedDate
     else NoStatus)
    ok.

(** *** Fetching the washermen, choosing a date, choosing a washerman *)

(** The [useState] cells of the component. *)
Record State := mkState {
  customerLocation : option LatLng;
  washermen : list Washerman;
  selectedDate : string;
  error : option string;
  loading : bool;
  noWashermenFound : bool;
  selectedWasherman : option Washerman
}.

Definition initial : State := mkState None [] "" None true false None.

Definition set_customerLocation (v : option LatLng) (s : State) : State :=
  mkState v (washermen s) (selectedDate s) (error s) (loading s)
    (noWashermenFound s) (selectedWasherman s).
Definition set_washermen (v : list Washerman) (s : State) : State :=
  mkState (customerLocation s) v (selectedDate s) (error s) (loading s)
    (noWashermenFound s) (selectedWasherman s).
Definition set_selectedDate (v : string) (s : State) : State :=
  mkState (customerLocation s) (washermen s) v (error s) (loading s)
    (noWashermenFound s) (selectedWasherman s).
Definition set_error (v : option string) (s : State) : State :=
  mkState (customerLocation s) (washermen s) (selectedDate s) v (loading s)
    (noWashermenFound s) (selectedWasherman s).
Definition set_loading (v : bool) (s : State) : State :=
  mkState (customerLocation s) (washermen s) (selectedDate s) (error s) v
    (noWashermenFound s) (selectedWasherman s).
Definition set_noWashermenFound (v : bool) (s : State) : State :=
  mkState (customerLocation s) (washermen s) (selectedDate s) (error s)
    (loading s) v (selectedWasherman s).
Definition set_selectedWasherman (v : option Washerman) (s : State) : State :=
  mkState (customerLocation s) (washermen s) (selectedDate s) (error s)
    (loading s) (noWashermenFound s) v.

(** What the component does to the outside, in order.  The request carries
    a [date] parameter only when a date is put into the URL. *)
Inductive Event :=
| GetCurrentLocation
| SaveCustomerLocation (la lo : float)
| ApiFetchNearby (la lo : float) (date : option string) (token : option string)
| ConsoleLog (what : string)
| ConsoleError (what : string).

Record World := mkWorld {
  ui : State;
  localStorage : gmap string string;
  trace : list Event
}.

Definition on_ui (f : State -> State) : M World unit :=
  modify (fun w => mkWorld (f (ui w)) (localStorage w) (trace w)).
Definition getItem (k : string) : M World (option string) :=
  gets (fun w => localStorage w !! k).
Definition perform (e : Event) : M World unit :=
  modify (fun w => mkWorld (ui w) (localStorage w) (trace w ++ [e])).

Definition setCustomerLocation (v : option LatLng) : M World unit :=
  on_ui (set_customerLocation v).
Definition setWashermen (v : list Washerman) : M World unit :=
  on_ui (set_washermen v).
Definition setSelectedDate (v : string) : M World unit :=
  on_ui (set_selectedDate v).
Definition setError (v : option string) : M World unit :=
  on_ui (set_error v).
Definition setLoading (v : bool) : M World unit :=
  on_ui (set_loading v).
Definition setNoWashermenFound (v : bool) : M World unit :=
  on_ui (set_noWashermenFound v).
Definition setSelectedWasherman (v : option Washerman) : M World unit :=
  on_ui (set_selectedWasherman v).

Record Response := mkResponse {
  ok : bool;
  res_status : Z;   (* [res.status] *)
  json : LocationFilter.Settled (list Washerman) LocationFilter.JsError
}.

(** The [catch] block of [fetchNearbyWashermen]. *)
Definition fetchFailed (err : LocationFilter.JsError) : M World unit :=
  perform (ConsoleError "Failed to fetch washermen:") ;;
  setError (Some (JS.or_string (LocationFilter.err_message err)
                    "Failed to fetch nearby washermen. Please try again.")).

(** [fetchNearbyWashermen].  [selectedDate] is the value the function closed
    over: that of the render which created it. *)
Definition fetchNearbyWashermen
    (selectedDate : string)
    (res : LocationFilter.Settled Response LocationFilter.JsError)
    (lat lng : float)
  : M World unit :=
  token ← getItem "token";
  perform (ConsoleLog "Fetching nearby washermen for coordinates:") ;;
  perform (ApiFetchNearby lat lng
             (if JS.truthy_string selectedDate then Some selectedDate else None)
             token) ;;
  match res with
  | LocationFilter.Resolved res =>
      if negb (ok res) then
        if bool_decide (res_status res = 401%Z) then
          fetchFailed (LocationFilter.mkJsError
                         (Some "Please sign in to view nearby washermen"))
        else
          fetchFailed (LocationFilter.mkJsError
                         (Some ("HTTP error! status: " +:+ pretty (res_status res))))
      else
        match json res with
        | LocationFilter.Resolved data =>
            perform (ConsoleLog "Received washermen data:") ;;
            if bool_decide (length data = 0) then
              perform (ConsoleLog "No washermen found in the area") ;;
              setNoWashermenFound true
            else
              perform (ConsoleLog ("Found " +:+ pretty (length data)
                                     +:+ " washermen in the area")) ;;
              setWashermen data
        | LocationFilter.Rejected err => fetchFailed err
        end
  | LocationFilter.Rejected err => fetchFailed err
  end.

(** The [catch] block of [getLocationAndSave]. *)
Definition locationFailed (err : LocationFilter.JsError) : M World unit :=
  perform (ConsoleError "Geolocation error:") ;;
  setError (Some (JS.or_string (LocationFilter.err_message err)
                    "Location access denied. Please enable GPS and refresh.")) ;;
  setLoading false.

(** [getLocationAndSave], the effect run at mount. *)
Definition getLocationAndSave
    (geo : LocationFilter.Settled LatLng LocationFilter.JsError)
    (save : LocationFilter.Settled unit LocationFilter.JsError)
    (res : LocationFilter.Settled Response LocationFilter.JsError)
  : M World unit :=
  closedOver ← gets (fun w => selectedDate (ui w));
  perform GetCurrentLocation ;;
  match geo with
  | LocationFilter.Resolved location =>
      setCustomerLocation (Some location) ;;
      perform (SaveCustomerLocation (lat location) (lng location)) ;;
      match save with
      | LocationFilter.Resolved _ =>
          fetchNearbyWashermen closedOver res (lat location) (lng location) ;;
          setLoading false
      | LocationFilter.Rejected err => locationFailed err
      end
  | LocationFilter.Rejected err => locationFailed err
  end.

(** [handleDateChange] for the value of the date input.  The call of
    [fetchNearbyWashermen] is the one of the current render, so it sees the
    date and the location of that render. *)
Definition handleDateChange
    (date : string)
    (res : LocationFilter.Settled Response LocationFilter.JsError)
  : M World unit :=
  closedOver ← gets (fun w => selectedDate (ui w));
  customerLocation ← gets (fun w => customerLocation (ui w));
  setSelectedDate date ;;
  match customerLocation with
  | Some customerLocation =>
      fetchNearbyWashermen closedOver res
        (lat customerLocation) (lng customerLocation)
  | None => mret tt
  end.

Definition handleWashermanSelect (washerman : Washerman) : M World unit :=
  setSelectedWasherman (Some washerman).

(** The slot chips of an available list entry, rendered when the washerman
    has at least one slot: the first three time ranges and, beyond three
    slots, how many more there are. *)
Definition slotPreview (washerman : Washerman) : option (list string * option nat) :=
  match availableSlots washerman with
  | Some (slot :: slots) =>
      let all := slot :: slots in
      Some (timeRange <$> take 3 all,
            if bool_decide (3 < length all) then Some (length all - 3) else None)
  | _ => None
  end.

(** The list column: a notice when there is no washerman, else one entry
    per washerman. *)
Inductive ListView :=
| EmptyNotice (text : string)
| Entries (items : list ListItem).

Definition renderList (selectedDate : string) (washermen : list Washerman) : ListView :=
  if bool_decide (length washermen = 0) then
    EmptyNotice
      (if JS.truthy_string selectedDate
       then "No washermen available in your area on " +:+ selectedDate
              +:+ ". Try a different date."
       else "There are no washermen available in your area at the moment.")
  else Entries (renderListItem selectedDate <$> washermen).

(** The "Book with ..." panel: the slots offered for the chosen washerman. *)
Definition bookingPanel (s : State) : option (string * list Slot) :=
  match selectedWasherman s with
  | Some w =>
      if JS.truthy_string (selectedDate s) then
        match availableSlots w with
        | Some (slot :: slots) => Some (name w, slot :: slots)
        | _ => None
        end
      else None
  | None => None
  end.

(** The screens of the component, in the order the render tests for them. *)
Inductive View :=
| LoadingMap
| ErrorScreen (message : string)
| NoLocation
| MapsFailed
| MapsLoading
| Page (customer : LatLng) (markers : list MarkerView) (column : ListView)
       (panel : option (string * list Slot)).

Definition render (isLoaded loadError : bool) (s : State) : View :=
  if loading s then LoadingMap
  else if JS.truthy_ostring (error s) then ErrorScreen (default "" (error s))
  else match customerLocation s with
       | None => NoLocation
       | Some customer =>
           if loadError then MapsFailed
           else if negb isLoaded then MapsLoading
           else Page customer
                  (renderMarker (selectedDate s) <$> washermen s)
                  (renderList (selectedDate s) (washermen s))
                  (bookingPanel s)
       end.

(** The requests for washermen in a trace. *)
Definition isFetch (e : Event) : bool :=
  match e with
  | ApiFetchNearby _ _ _ _ => true
  | _ => false
  end.

End NearbySlots.

(** ** Concrete scenarios *)
Module Scenario.

Import LocationFilter.

Definition bengaluru : Location :=
  mkLocation 12.5 77.5 (Some "MG Road, Bengaluru").

Definition mysuru : Location :=
  mkLocation 12.25 76.5 (Some "Sayyaji Rao Road, Mysuru").

Definition freshState : State :=
  mkState None false false None "" "" false false
    (mkLatLng 20.5 78.5) None false noAddressDetails ∅.

(** A customer who is signed in, and one who is not. *)
Definition signedIn : World :=
  mkWorld freshState {[ "token" := "eyJhbGciOi" ]} [].

Definition signedOut : World :=
  mkWorld freshState ∅ [].

(** Stand-ins for the platform built-ins: a location object is serialised
    to the text of its address, every other value to ["{}"]. *)
Definition stringify (v : JS.value) : string :=
  match v with
  | JS.Obj [("lat", _); ("lng", _); ("address", JS.Str a)] => a
  | _ => "{}"
  end.

(** The matching stand-in for [JSON.parse]: it reads back the two locations
    of the scenarios and throws on anything else. *)
Definition parse (s : string) : option Location :=
  if bool_decide (s = "MG Road, Bengaluru") then Some bengaluru
  else if bool_decide (s = "Sayyaji Rao Road, Mysuru") then Some mysuru
  else None.

Definition toFixed (x : float) (digits : nat) : string := "0.0000".

Definition parseFloat (s : string) : float :=
  if bool_decide (s = "12.25") then 12.25%float
  else if bool_decide (s = "76.5") then 76.5%float
  else PrimFloat.nan.

(** The customer detects the location (Bengaluru), then clicks Mysuru on the
    map. *)
Definition mysuruPicked : World :=
  exec (detectCurrentLocation stringify (Resolved bengaluru) (Rejected tt) ;;
        handleMapClick toFixed (Some (mkLatLng 12.25 76.5))
          (Resolved (mkReverseResult (Some "Sayyaji Rao Road, Mysuru") None)))
       signedIn.

(** The address form, opened for Bengaluru, holding the given details. *)
Definition atAddressForm (details : AddressDetails) : World :=
  mkWorld (set_addressDetails details
             (set_showAddressForm true
                (set_customerLocation (Some bengaluru) freshState)))
          {[ "token" := "eyJhbGciOi" ]} [].

Definition completeAddress : AddressDetails :=
  mkAddressDetails (Some "12B") (Some "MG Road") None
                   (Some "Bengaluru") (Some "Karnataka") (Some "560001").

Definition lettersPincode : AddressDetails :=
  mkAddressDetails (Some "12B") (Some "MG Road") None
                   (Some "Bengaluru") (Some "Karnataka") (Some "abcdef").

Definition washFold : Service :=
  mkService "s1" "Wash and Fold" "wash-fold" "laundry" "Per kg" "wash.png"
    [mkServiceOption "o1" "Regular" 40]
    (mkWasherman "w1" "Ravi" "9000000000" 800 (mkLatLng 12.5 77.5) None).

Definition servicesFound : ServiceAvailabilityResponse :=
  mkResponse true bengaluru (mkAvailability true 1 1 1 0) [washFold]
    "Services available" None.

Definition nothingNearby : ServiceAvailabilityResponse :=
  mkResponse true bengaluru (mkAvailability false 0 2 0 2) []
    "No services nearby" None.

(** The customer typed an address into the manual input. *)
Definition typedAddress : World :=
  mkWorld (set_manualAddress "Sayyaji Rao Road"
             (set_showManualInput true freshState))
          {[ "token" := "eyJhbGciOi" ]} [].

Definition searchHit : SearchResult :=
  mkSearchResult "12.25" "76.5" "Sayyaji Rao Road, Mysuru" None.

(** A request that failed without any response (network down). *)
Definition networkDown : AxiosError := mkAxiosError None.

(** A captured install prompt. *)
Definition promptEvent : PWA.BeforeInstallPromptEvent := PWA.PromptEvent 1.

Definition freshHook : PWA.World := PWA.mkWorld PWA.initial ∅ [].

Definition pixelChrome : string :=
  "Mozilla/5.0 (Linux; Android 13; Pixel 7) AppleWebKit/537.36 Chrome/120.0 Mobile Safari/537.36".

(** The slots page of a signed-in customer: one washerman fetched without
    a date, none selected. *)
Definition morning : NearbySlots.Slot := NearbySlots.mkSlot "08:00-10:00" "Morning" 2 4.
Definition noon : NearbySlots.Slot := NearbySlots.mkSlot "12:00-14:00" "Afternoon" 1 4.
Definition evening : NearbySlots.Slot := NearbySlots.mkSlot "17:00-19:00" "Evening" 4 4.
Definition night : NearbySlots.Slot := NearbySlots.mkSlot "20:00-22:00" "Night" 3 4.

Definition ravi : NearbySlots.Washerman :=
  NearbySlots.mkWasherman "w1" "Ravi" "9000000000" 800
    (NearbySlots.mkLatLng 12.5 77.5) (Some true)
    (Some [morning; noon; evening; night]) (Some 10%float).

Definition slotsPage : NearbySlots.World :=
  NearbySlots.mkWorld
    (NearbySlots.mkState (Some (NearbySlots.mkLatLng 12.5 77.5)) [ravi]
       "2026-01-15" None false false (Some ravi))
    {[ "token" := "eyJhbGciOi" ]} [].

Definition unauthorized : NearbyMap.Response :=
  NearbyMap.mkResponse false 401
    (LocationFilter.Rejected (LocationFilter.mkJsError None)).

Definition mapPage : NearbyMap.World :=
  NearbyMap.mkWorld NearbyMap.initial ∅ [].

(** The world after Bengaluru was detected (address lookup failed). *)
Definition bengaluruDetected : World :=
  exec (detectCurrentLocation stringify (Resolved bengaluru) (Rejected tt))
       signedIn.

End Scenario.

(** ** The install prompt *)

(** C8 -- [installPWA] throws when no prompt was captured and then changes
    nothing; when the user accepts it marks the app installed and writes
    ["pwa-installed" = "true"] to local storage; when the user dismisses it
    leaves the installed flag, the [canInstall] flag and local storage as
    they were; after either answer the captured prompt is gone, so a second
    call throws. *)
Theorem installPWA_contract (outcome : string) (w : PWA.World) :
  let r := PWA.installPWA outcome w in
  match PWA.deferredPrompt (PWA.st w) with
  | None => r = (PWA.Thrown "PWA install prompt not available", w)
  | Some e =>
      r.1 = PWA.Returned
      /\ PWA.deferredPrompt (PWA.st r.2) = None
      /\ (forall outcome', (PWA.installPWA outcome' r.2).1
                           = PWA.Thrown "PWA install prompt not available")
      /\ (if bool_decide (outcome = "accepted") then
            PWA.isInstalled (PWA.st r.2) = true
            /\ PWA.localStorage r.2 !! "pwa-installed" = Some "true"
          else
            PWA.isInstalled (PWA.st r.2) = PWA.isInstalled (PWA.st w)
            /\ PWA.canInstall (PWA.st r.2) = PWA.canInstall (PWA.st w)
            /\ PWA.localStorage r.2 = PWA.localStorage w)
  end.
Proof.
  destruct w as [[inst sa ci [e|]] ls eff]; cbn; [|reflexivity].
  unfold PWA.installPWA, mbind, M_bind, gets; cbn.
  destruct (bool_decide (outcome = "accepted")); cbn;
    repeat split; try reflexivity.
  apply lookup_insert_eq.
Qed.

(** ** The order on doubles *)
Section FloatOrder.

Import SpecFloat.

Lemma SFleb_trans (x y z : spec_float) :
  SFleb x y = true -> SFleb y z = true -> SFleb x z = true.
Proof.
  unfold SFleb, SFcompare.
  destruct x as [sx|sx| |sx mx ex], y as [sy|sy| |sy my ey],
           z as [sz|sz| |sz mz ez];
    try discriminate; try reflexivity;
    repeat match goal with b : bool |- _ => destruct b end;
    try discriminate; try reflexivity.
  all: destruct (Z.compare_spec ex ey), (Z.compare_spec ey ez);
    try discriminate; intros.
  all: destruct (Z.compare_spec ex ez); try lia; subst; try reflexivity.
  all: change (PosDef.Pos.compare_cont Eq) with Pos.compare in *.
  all: destruct (Pos.compare_spec mx my), (Pos.compare_spec my mz);
    try discriminate; destruct (Pos.compare_spec mx mz); try lia; reflexivity.
Qed.

Lemma float_leb_trans (x y z : float) :
  PrimFloat.leb x y = true -> PrimFloat.leb y z = true ->
  PrimFloat.leb x z = true.
Proof. rewrite !leb_spec. apply SFleb_trans. Qed.

End FloatOrder.

(** ** Proximity classification on the map *)
Section NearbyMapProps.

Import NearbyMap.

Variable calculateDistance : float -> float -> float -> float -> float.
Variable toFixed : float -> nat -> string.

Lemma rangeOrDefault_cases (w : Washerman) :
  rangeOrDefault w =
    match range w with
    | Some r => if PrimFloat.eqb r 0 || PrimFloat.is_nan r then 500%float else r
    | None => 500%float
    end.
Proof.
  unfold rangeOrDefault, JS.or_number, JS.truthy_number.
  destruct (range w) as [r|]; [|reflexivity].
  destruct (PrimFloat.eqb r 0 || PrimFloat.is_nan r); reflexivity.
Qed.

Lemma inRange_downward (w : Washerman) (d1 d2 : float) :
  PrimFloat.leb d1 d2 = true -> inRange d2 w = true -> inRange d1 w = true.
Proof. unfold inRange. apply float_leb_trans. Qed.

(** C3 (amended) -- a washerman is drawn in range exactly when the distance
    from the customer is at most the washerman's own range, where a range
    that is missing, zero or NaN is replaced by 500; as a function of the
    distance the classification is a threshold: in range stays in range for
    every smaller distance, out of range stays out of range for every larger
    one. *)
Theorem inRange_own_range_threshold (customerLocation : LatLng) (w : Washerman) :
  (range w = None -> rangeOrDefault w = 500%float)
  /\ (forall r, range w = Some r ->
        rangeOrDefault w =
          if PrimFloat.eqb r 0 || PrimFloat.is_nan r then 500%float else r)
  /\ (forall d, inRange d w = PrimFloat.leb d (rangeOrDefault w))
  /\ (forall d1 d2, PrimFloat.leb d1 d2 = true ->
        inRange d2 w = true -> inRange d1 w = true)
  /\ (forall d1 d2, PrimFloat.leb d1 d2 = true ->
        inRange d1 w = false -> inRange d2 w = false)
  /\ (forall p, coordinatesOf w = Some p ->
        exists v,
          renderWasherman calculateDistance toFixed customerLocation w = Some v
          /\ markerFill v =
               (if inRange (distanceTo calculateDistance customerLocation p) w
                then "#10b981" else "#6b7280")
          /\ circleColor v = markerFill v
          /\ circleRadius v = rangeOrDefault w).
Proof.
  repeat split.
  - intros E. rewrite rangeOrDefault_cases, E. reflexivity.
  - intros r E. rewrite rangeOrDefault_cases, E. reflexivity.
  - intros d1 d2. apply inRange_downward.
  - intros d1 d2 Hle Hout.
    destruct (inRange d2 w) eqn:E; [|reflexivity].
    rewrite (inRange_downward w d1 d2 Hle E) in Hout. discriminate.
  - intros p Hp. unfold renderWasherman. rewrite Hp. cbn.
    eexists. repeat split.
Qed.

End NearbyMapProps.

(** C3 -- the claim as written compares with the declared range whenever one
    is declared; a washerman declaring range 0 is compared with 500 instead:
    at 100 metres it is drawn in range although 100 <= 0 fails. *)
Lemma inRange_zero_range_counterexample :
  let w := NearbyMap.mkWasherman "w1" "Ravi" "9000000000" (Some 0%float)
             (Some (NearbyMap.mkCoordinates (Some 12.5%float) (Some 77.5%float))) in
  NearbyMap.inRange 100 w = true
  /\ PrimFloat.leb 100 (NearbyMap.declaredRangeOr500 w) = false
  /\ NearbyMap.rangeOrDefault w = 500%float.
Proof. repeat split. Qed.

(** A washerman with range 400: in range at 300 m, hence at 100 m. *)
Lemma inRange_own_range_threshold_witness :
  let w := NearbyMap.mkWasherman "w1" "Ravi" "9000000000" (Some 400%float)
             (Some (NearbyMap.mkCoordinates (Some 12.5%float) (Some 77.5%float))) in
  NearbyMap.rangeOrDefault w = 400%float /\ NearbyMap.inRange 100 w = true.
Proof.
  intros w.
  pose proof (inRange_own_range_threshold
                (fun _ _ _ _ => 300%float) (fun _ _ => "300")
                (NearbyMap.mkLatLng 12.5 77.5) w) as (_ & Hr & _ & Hdown & _).
  split.
  - exact (Hr 400%float eq_refl).
  - exact (Hdown 100%float 300%float eq_refl eq_refl).
Defined.

(** ** Date-scoped availability in the slots view *)
Section NearbySlotsProps.

Import NearbySlots.

(** C10 -- with no date selected every washerman counts as available with
    slots, whatever its [isAvailable] flag and slot total: the marker is
    green and titled "Available", the list entry is not dimmed and shows
    "Book Now"; with a date selected the washerman counts as available
    exactly when the backend flagged it available and its slot total is
    positive. *)
Theorem no_date_all_available (w : Washerman) :
  (isAvailableOn "" w = Some true
   /\ hasSlots "" w = true
   /\ renderMarker "" w =
        mkMarkerView "#10b981" (name w +:+ " - Available") "#10b981"
   /\ renderListItem "" w = mkListItem false NoStatus true)
  /\ (forall c d,
        isAvailableOn (String c d) w = isAvailable w
        /\ hasSlots (String c d) w =
             PrimFloat.ltb 0 (JS.or_number (totalAvailableSlots w) 0)
        /\ availableWithSlots (String c d) w =
             bool_decide (isAvailable w = Some true)
             && PrimFloat.ltb 0 (JS.or_number (totalAvailableSlots w) 0)).
Proof.
  split; [repeat split|].
  intros c d. repeat split.
  unfold availableWithSlots; cbn.
  destruct (isAvailable w) as [[|]|]; reflexivity.
Qed.

End NearbySlotsProps.

(** ** The availability check *)
Section AvailabilityProps.

Import LocationFilter.

(** The world a handler leaves behind. *)
Ltac run :=
  unfold exec, checkServiceAvailability, setIsCheckingAvailability, setError,
    setAvailabilityData, getItem, perform, on_ui, modify, gets,
    mbind, M_bind, mret, M_ret;
  cbn [snd fst ui localStorage trace].

(** C1 -- with a token stored, a resolved availability request stores the
    response and calls back exactly once: [onServicesFound] with the
    response's [services] when [servicesAvailable] is true, [onNoServices]
    otherwise. *)
Theorem success_response_dispatch
    (data : ServiceAvailabilityResponse) (location : Location) (w : World)
    (Htoken : JS.truthy_ostring (localStorage w !! "token") = true) :
  let w' := exec (checkServiceAvailability (Resolved data) location) w in
  trace w' =
    trace w ++
      [AxiosPost "/api/check-availability" (Location_to_value location)
         (default "" (localStorage w !! "token"));
       if servicesAvailable (availability data)
       then OnServicesFound (services data) else OnNoServices]
  /\ availabilityData (ui w') = Some data
  /\ error (ui w') = ""
  /\ isCheckingAvailability (ui w') = false
  /\ localStorage w' = localStorage w.
Proof.
  run. rewrite Htoken. cbn.
  destruct (servicesAvailable (availability data)); cbn;
    rewrite <- app_assoc; repeat split.
Qed.

(** C7 -- running the check again with the same location and the same
    answer from the backend leaves the component state and local storage as
    the first run left them, and performs the same request and callback
    again: the stored availability is replaced, never accumulated. *)
Theorem checkServiceAvailability_idempotent
    (post : Settled ServiceAvailabilityResponse AxiosError)
    (location : Location) (w : World) :
  let w1 := exec (checkServiceAvailability post location) w in
  let w2 := exec (checkServiceAvailability post location) w1 in
  ui w2 = ui w1
  /\ localStorage w2 = localStorage w1
  /\ exists events, trace w1 = trace w ++ events /\ trace w2 = trace w1 ++ events.
Proof.
  run. destruct (JS.truthy_ostring (localStorage w !! "token")) eqn:Htoken.
  - destruct post as [data|err]; cbn.
    + destruct (servicesAvailable (availability data)); cbn;
        rewrite Htoken; cbn; repeat split; eexists;
        rewrite <- !app_assoc; split; reflexivity.
    + rewrite Htoken; cbn; repeat split; eexists;
        rewrite <- !app_assoc; split; reflexivity.
  - cbn. rewrite Htoken. cbn. repeat split.
    exists []. rewrite !app_nil_r. split; reflexivity.
Qed.

(** C2 (amended) -- without a non-empty stored token the check shows
    "Please log in to check service availability" and performs no request
    and no callback; with a token, a rejected request -- whatever its HTTP
    status, 401 included -- shows the message of the response body when
    there is a non-empty one and "Failed to check service availability"
    otherwise, and calls [onNoServices]. *)
Theorem availability_failure_paths
    (post : Settled ServiceAvailabilityResponse AxiosError)
    (location : Location) (w : World) :
  let w' := exec (checkServiceAvailability post location) w in
  (JS.truthy_ostring (localStorage w !! "token") = false ->
     error (ui w') = "Please log in to check service availability"
     /\ trace w' = trace w
     /\ localStorage w' = localStorage w
     /\ availabilityData (ui w') = availabilityData (ui w)
     /\ isCheckingAvailability (ui w') = false)
  /\ (JS.truthy_ostring (localStorage w !! "token") = true ->
      forall err, post = Rejected err ->
        error (ui w') =
          JS.or_string ((response err ≫= data) ≫= eb_message)
                       "Failed to check service availability"
        /\ trace w' =
             trace w ++
               [AxiosPost "/api/check-availability" (Location_to_value location)
                  (default "" (localStorage w !! "token"));
                ConsoleError "Error checking service availability:";
                OnNoServices]
        /\ availabilityData (ui w') = availabilityData (ui w)
        /\ isCheckingAvailability (ui w') = false)
  /\ (forall status status' msg,
        exec (checkServiceAvailability (rejectedWith status msg) location) w
        = exec (checkServiceAvailability (rejectedWith status' msg) location) w).
Proof.
  run. split; [|split].
  - intros ->. cbn. repeat split.
  - intros -> err ->. cbn. rewrite <- !app_assoc. repeat split.
  - intros status status' msg.
    destruct (JS.truthy_ostring (localStorage w !! "token")); reflexivity.
Qed.

End AvailabilityProps.

(** C2 -- the claim as written sends HTTP 401 to the Unauthenticated
    condition and every other status to the generic one.  A 401 and a 500
    without a body message leave exactly the same world behind, showing the
    generic message, so nothing read off the outcome tells them apart. *)
Lemma status_not_inspected_counterexample :
  let run status :=
    exec (LocationFilter.checkServiceAvailability
            (LocationFilter.rejectedWith status None) Scenario.bengaluru) Scenario.signedIn in
  run 401%Z = run 500%Z
  /\ LocationFilter.error (LocationFilter.ui (run 401%Z))
     = "Failed to check service availability"
  /\ ~ (exists observe : LocationFilter.World -> LocationFilter.Condition,
          observe (run 401%Z) = LocationFilter.conditionOfStatus 401
          /\ observe (run 500%Z) = LocationFilter.conditionOfStatus 500).
Proof.
  cbv zeta. split; [reflexivity|]. split; [reflexivity|].
  intros (observe & H401 & H500).
  change (exec (LocationFilter.checkServiceAvailability
            (LocationFilter.rejectedWith 500 None) Scenario.bengaluru) Scenario.signedIn)
    with (exec (LocationFilter.checkServiceAvailability
            (LocationFilter.rejectedWith 401 None) Scenario.bengaluru) Scenario.signedIn) in H500.
  rewrite H401 in H500. discriminate.
Qed.

(** An expired token answered with 401 and a message; a signed-out customer. *)
Lemma availability_failure_paths_witness :
  LocationFilter.error (LocationFilter.ui
    (exec (LocationFilter.checkServiceAvailability
             (LocationFilter.rejectedWith 401 (Some "Token expired")) Scenario.bengaluru)
          Scenario.signedIn)) = "Token expired"
  /\ LocationFilter.trace
       (exec (LocationFilter.checkServiceAvailability
                (LocationFilter.rejectedWith 401 None) Scenario.bengaluru) Scenario.signedOut) = [].
Proof.
  split.
  - pose proof (availability_failure_paths
                  (LocationFilter.rejectedWith 401 (Some "Token expired"))
                  Scenario.bengaluru Scenario.signedIn) as (_ & H & _).
    exact (proj1 (H eq_refl _ eq_refl)).
  - pose proof (availability_failure_paths
                  (LocationFilter.rejectedWith 401 None)
                  Scenario.bengaluru Scenario.signedOut) as (H & _).
    exact (proj1 (proj2 (H eq_refl))).
Defined.

(** The signed-in customer in Bengaluru: one service found, and none. *)
Lemma success_response_dispatch_witness :
  LocationFilter.trace
    (exec (LocationFilter.checkServiceAvailability
             (LocationFilter.Resolved Scenario.servicesFound) Scenario.bengaluru)
          Scenario.signedIn)
  = [LocationFilter.AxiosPost "/api/check-availability"
       (LocationFilter.Location_to_value Scenario.bengaluru) "eyJhbGciOi";
     LocationFilter.OnServicesFound [Scenario.washFold]]
  /\ LocationFilter.trace
       (exec (LocationFilter.checkServiceAvailability
                (LocationFilter.Resolved Scenario.nothingNearby) Scenario.bengaluru)
             Scenario.signedIn)
     = [LocationFilter.AxiosPost "/api/check-availability"
          (LocationFilter.Location_to_value Scenario.bengaluru) "eyJhbGciOi";
        LocationFilter.OnNoServices].
Proof.
  split.
  - exact (proj1 (success_response_dispatch Scenario.servicesFound
                    Scenario.bengaluru Scenario.signedIn eq_refl)).
  - exact (proj1 (success_response_dispatch Scenario.nothingNearby
                    Scenario.bengaluru Scenario.signedIn eq_refl)).
Defined.

(** ** Confirming a location and its address details *)
Section LocationProps.

Import LocationFilter.

Variable JSON_stringify : JS.value -> string.
Variable parseFloat : string -> float.
Variable toFixed : float -> nat -> string.
Variable JSON_parse : string -> option Location.

Ltac run :=
  unfold exec, eval, onSaveAndContinue, confirmMapLocation, handleMapClick,
    onMount, onCustomerLocationChange,
    handleManualAddressSubmit, detectCurrentLocation, saveLocationToBackend,
    checkServiceAvailability, validateAddressDetails,
    setCustomerLocation, setIsDetectingLocation, setIsCheckingAvailability,
    setAvailabilityData, setError, setManualAddress, setShowManualInput,
    setShowMap, setSelectedMapLocation, setShowAddressForm, setAddressDetails,
    setAddressErrors, getItem, setItem, perform, on_ui, modify, gets,
    mbind, M_bind, mret, M_ret;
  cbn [snd fst ui localStorage trace].

Lemma or_string_truthy (a : option string) (d : string) :
  JS.truthy_string d = true -> JS.truthy_string (JS.or_string a d) = true.
Proof.
  intros Hd. unfold JS.or_string.
  destruct a as [v|]; [|exact Hd].
  destruct (JS.truthy_string v) eqn:E; [exact E|exact Hd].
Qed.

(** C6 -- a submitted (non-blank) manual address whose geocoding answers
    with no result shows "Address not found", and leaves the current
    location, local storage and the parent untouched; with at least one
    result the location stored, in the component and under
    ["customerLocation"] in local storage, carries the first result's
    [display_name] as its address. *)
Theorem manual_address_geocoding (w : World)
    (Hq : JS.truthy_string (JS.trim (manualAddress (ui w))) = true) :
  let submit results :=
    exec (handleManualAddressSubmit JSON_stringify parseFloat (Resolved results)) w in
  (error (ui (submit [])) = "Address not found. Please try a different address."
   /\ customerLocation (ui (submit [])) = customerLocation (ui w)
   /\ localStorage (submit []) = localStorage w
   /\ trace (submit []) = trace w ++ [NominatimSearch (manualAddress (ui w))])
  /\ (forall result rest,
        let location :=
          mkLocation (parseFloat (sr_lat result)) (parseFloat (sr_lon result))
                     (Some (sr_display_name result)) in
        customerLocation (ui (submit (result :: rest))) = Some location
        /\ localStorage (submit (result :: rest))
           = <["customerLocation" := JSON_stringify (Location_to_value location)]>
               (localStorage w)
        /\ trace (submit (result :: rest))
           = trace w ++ [NominatimSearch (manualAddress (ui w));
                         OnLocationSet location]
        /\ error (ui (submit (result :: rest))) = "").
Proof.
  run. rewrite Hq. cbn. split.
  - repeat split.
  - intros result rest. cbn. rewrite <- app_assoc. repeat split.
Qed.

Lemma detectCurrentLocation_persists
    (location : Location) (rev : Settled ReverseResult unit) (w : World) :
  let w' := exec (detectCurrentLocation JSON_stringify (Resolved location) rev) w in
  customerLocation (ui w') = Some location
  /\ localStorage w'
     = <["customerLocation" := JSON_stringify (Location_to_value location)]>
         (localStorage w).
Proof. run. destruct rev; cbn; repeat split. Qed.

Lemma onSaveAndContinue_keeps_location_slot
    (save : Settled unit AxiosError)
    (check : Settled ServiceAvailabilityResponse AxiosError) (w : World) :
  localStorage (exec (onSaveAndContinue JSON_stringify save check) w)
    !! "customerLocation"
  = localStorage w !! "customerLocation".
Proof.
  run.
  destruct (customerLocation (ui w)) as [l|]; [|reflexivity].
  destruct (bool_decide (size (addressErrorsOf (addressDetails (ui w))) = 0));
    cbn; [|reflexivity].
  destruct (JS.truthy_ostring (localStorage w !! "token")) eqn:Htoken; cbn.
  - destruct save; cbn;
      match goal with
      | |- context [JS.truthy_ostring ?t] => destruct (JS.truthy_ostring t)
      end; cbn;
      destruct check as [data|err]; cbn;
      try destruct (servicesAvailable (availability data)); cbn;
      rewrite ?lookup_insert_ne by discriminate; reflexivity.
  - rewrite Htoken. reflexivity.
Qed.

Lemma checkServiceAvailability_keeps_storage
    (post : Settled ServiceAvailabilityResponse AxiosError)
    (location : Location) (w : World) :
  localStorage (exec (checkServiceAvailability post location) w) = localStorage w.
Proof.
  run. destruct (JS.truthy_ostring (localStorage w !! "token")); cbn;
    [|reflexivity].
  destruct post as [data|err]; cbn;
    try destruct (servicesAvailable (availability data)); reflexivity.
Qed.

(** C4 -- confirming a location picked on the map replaces the location held
    by the component and tells the parent, but writes nothing to local
    storage; nor do the availability check that the change triggers and the
    "Save and Continue" step that follows: the ["customerLocation"] slot
    keeps whatever it held before. *)
Theorem confirmMapLocation_skips_storage (w : World) (picked : Location)
    (Hpicked : selectedMapLocation (ui w) = Some picked) :
  let w' := exec confirmMapLocation w in
  customerLocation (ui w') = Some picked
  /\ localStorage w' = localStorage w
  /\ trace w' = trace w ++ [OnLocationSet picked]
  /\ (forall check,
        localStorage (exec (onCustomerLocationChange check) w') = localStorage w)
  /\ (forall save check,
        localStorage (exec (onSaveAndContinue JSON_stringify save check) w')
          !! "customerLocation"
        = localStorage w !! "customerLocation").
Proof.
  split; [|split; [|split; [|split]]].
  - run. rewrite Hpicked. reflexivity.
  - run. rewrite Hpicked. reflexivity.
  - run. rewrite Hpicked. reflexivity.
  - intros check. run. rewrite Hpicked. cbn.
    destruct (JS.truthy_ostring (localStorage w !! "token")); cbn;
      [|reflexivity].
    destruct check as [data|err]; cbn;
      try destruct (servicesAvailable (availability data)); reflexivity.
  - intros save check. rewrite onSaveAndContinue_keeps_location_slot.
    run. rewrite Hpicked. reflexivity.
Qed.

(** *** Address validation *)

Lemma addressErrorsOf_size (d : AddressDetails) :
  bool_decide (size (addressErrorsOf d) = 0) =
    negb (JS.blank (houseNumber d)) && negb (JS.blank (street d))
    && negb (JS.blank (city d)) && negb (JS.blank (state d))
    && negb (JS.blank (zip d)
             || negb (bool_decide (String.length <$> zip d = Some 6))).
Proof.
  unfold addressErrorsOf.
  destruct (JS.blank (houseNumber d)), (JS.blank (street d)),
    (JS.blank (city d)), (JS.blank (state d)),
    (JS.blank (zip d) || negb (bool_decide (String.length <$> zip d = Some 6)));
    cbn [negb andb];
    first [ reflexivity
          | apply bool_decide_eq_false; rewrite map_size_empty_iff;
            apply insert_non_empty ].
Qed.

Lemma validateAddressDetails_true_iff (w : World) :
  eval validateAddressDetails w = true <->
    let d := addressDetails (ui w) in
    JS.blank (houseNumber d) = false /\ JS.blank (street d) = false
    /\ JS.blank (city d) = false /\ JS.blank (state d) = false
    /\ JS.blank (zip d) = false /\ String.length <$> zip d = Some 6.
Proof.
  run. rewrite addressErrorsOf_size, !andb_true_iff, !negb_true_iff,
    orb_false_iff, negb_false_iff, bool_decide_eq_true.
  cbn zeta. tauto.
Qed.

Lemma validateAddressDetails_errors (w : World) :
  let d := addressDetails (ui w) in
  let errors := addressErrors (ui (exec validateAddressDetails w)) in
  (JS.blank (houseNumber d) = true ->
     errors !! "houseNumber" = Some "House/Flat/Block No. is required")
  /\ (JS.blank (street d) = true ->
        errors !! "street" = Some "Street/Area is required")
  /\ (JS.blank (city d) = true -> errors !! "city" = Some "City is required")
  /\ (JS.blank (state d) = true -> errors !! "state" = Some "State is required")
  /\ (JS.blank (zip d) = true \/ String.length <$> zip d <> Some 6 ->
        errors !! "zip" = Some "Valid 6-digit pincode is required").
Proof.
  run. unfold addressErrorsOf. cbn zeta.
  assert (Hzip : JS.blank (zip (addressDetails (ui w))) = true
                 \/ String.length <$> zip (addressDetails (ui w)) <> Some 6 ->
                 JS.blank (zip (addressDetails (ui w)))
                 || negb (bool_decide
                      (String.length <$> zip (addressDetails (ui w)) = Some 6))
                 = true).
  { intros [->|Hn]; [reflexivity|].
    rewrite (bool_decide_eq_false_2 _ Hn). apply orb_true_r. }
  repeat split; intros H; try rewrite (Hzip H); try rewrite H;
    repeat match goal with
           | |- context [if ?b then _ else _] => destruct b
           end;
    by simplify_map_eq.
Qed.

Lemma invalid_address_not_saved
    (save : Settled unit AxiosError)
    (check : Settled ServiceAvailabilityResponse AxiosError) (w : World) :
  eval validateAddressDetails w = false ->
  let w' := exec (onSaveAndContinue JSON_stringify save check) w in
  trace w' = trace w /\ localStorage w' = localStorage w
  /\ error (ui w') = error (ui w).
Proof.
  run. intros Hinvalid.
  destruct (customerLocation (ui w)); [|repeat split].
  rewrite Hinvalid. cbn. repeat split.
Qed.

(** *** Which failures reach the user *)

(** C9 (amended) -- a failed geolocation, a manual address that is blank,
    not found or cannot be geocoded, a rejected availability request and a
    missing token each leave a non-empty [error] for the view to show.  A
    failed address-detail lookup and a failed save of the location to the
    backend do not: the former leaves blank address details and the flow
    goes on, the latter never changes the component state, and a failed
    reverse lookup of a map click falls back to the coordinates as label. *)
Theorem failures_surfaced_or_absorbed (w : World) (location : Location) :
  (forall err rev,
     JS.truthy_string (error (ui (exec
       (detectCurrentLocation JSON_stringify (Rejected err) rev) w))) = true)
  /\ (forall geocode,
        (forall result rest, geocode <> Resolved (result :: rest)) ->
        JS.truthy_string (error (ui (exec
          (handleManualAddressSubmit JSON_stringify parseFloat geocode) w))) = true)
  /\ (forall err,
        JS.truthy_string (error (ui (exec
          (checkServiceAvailability (Rejected err) location) w))) = true)
  /\ (forall post,
        JS.truthy_ostring (localStorage w !! "token") = false ->
        JS.truthy_string (error (ui (exec
          (checkServiceAvailability post location) w))) = true)
  /\ (forall e,
        let w' := exec (detectCurrentLocation JSON_stringify
                          (Resolved location) (Rejected e)) w in
        error (ui w') = ""
        /\ addressDetails (ui w') = noAddressDetails
        /\ customerLocation (ui w') = Some location
        /\ showAddressForm (ui w') = true)
  /\ (forall save save' check,
        ui (exec (onSaveAndContinue JSON_stringify save check) w)
        = ui (exec (onSaveAndContinue JSON_stringify save' check) w))
  /\ (forall p e,
        let w' := exec (handleMapClick toFixed (Some p) (Rejected e)) w in
        error (ui w') = error (ui w)
        /\ selectedMapLocation (ui w') =
             Some (mkLocation (ll_lat p) (ll_lng p)
                     (Some (toFixed (ll_lat p) 4 +:+ ", " +:+ toFixed (ll_lng p) 4)))
        /\ addressDetails (ui w') = noAddressDetails).
Proof.
  split; [|split; [|split; [|split; [|split; [|split]]]]].
  - intros err rev. run. cbn. apply or_string_truthy. reflexivity.
  - intros geocode Hnone. run.
    destruct (JS.truthy_string (JS.trim (manualAddress (ui w)))); cbn;
      [|reflexivity].
    destruct geocode as [[|result rest]|e]; cbn; try reflexivity.
    destruct (Hnone result rest eq_refl).
  - intros err. run.
    destruct (JS.truthy_ostring (localStorage w !! "token")); cbn;
      [apply or_string_truthy|]; reflexivity.
  - intros post Htoken. run. rewrite Htoken. reflexivity.
  - intros e. run. cbn. repeat split.
  - intros save save' check. run.
    destruct (customerLocation (ui w)) as [l|]; [|reflexivity].
    destruct (bool_decide (size (addressErrorsOf (addressDetails (ui w))) = 0));
      cbn; [|reflexivity].
    destruct (JS.truthy_ostring (localStorage w !! "token")) eqn:Htoken; cbn;
      [|rewrite Htoken; reflexivity].
    assert (Hkeep : forall v,
              JS.truthy_ostring
                (<["deliveryAddress" := v]> (localStorage w) !! "token") = true).
    { intros v. rewrite lookup_insert_ne by discriminate. exact Htoken. }
    destruct save, save'; cbn; rewrite ?Hkeep, ?Htoken;
      destruct check as [data|err]; cbn;
      try destruct (servicesAvailable (availability data)); reflexivity.
  - intros p e. run. cbn. repeat split.
Qed.

End LocationProps.

(** ** The scenarios, run *)

(** The typed address is found: Mysuru becomes the customer location. *)
Lemma manual_address_geocoding_witness :
  LocationFilter.customerLocation (LocationFilter.ui
    (exec (LocationFilter.handleManualAddressSubmit
             Scenario.stringify Scenario.parseFloat
             (LocationFilter.Resolved [Scenario.searchHit]))
          Scenario.typedAddress))
  = Some Scenario.mysuru.
Proof.
  exact (proj1 (proj2 (manual_address_geocoding
                         Scenario.stringify Scenario.parseFloat
                         Scenario.typedAddress eq_refl)
                      Scenario.searchHit [])).
Defined.

(** After detecting Bengaluru and confirming Mysuru on the map, the
    component holds Mysuru while local storage still holds Bengaluru, which
    is what the next mount of the component restores. *)
Lemma confirmMapLocation_skips_storage_witness :
  let w' := exec LocationFilter.confirmMapLocation Scenario.mysuruPicked in
  let reloaded :=
    exec (LocationFilter.onMount Scenario.parse false
            (LocationFilter.Resolved Scenario.servicesFound))
         (LocationFilter.mkWorld Scenario.freshState
            (LocationFilter.localStorage w') []) in
  LocationFilter.customerLocation (LocationFilter.ui w') = Some Scenario.mysuru
  /\ LocationFilter.localStorage w' !! "customerLocation"
     = Some (Scenario.stringify
               (LocationFilter.Location_to_value Scenario.bengaluru))
  /\ LocationFilter.customerLocation (LocationFilter.ui reloaded)
     = Some Scenario.bengaluru.
Proof.
  pose proof (confirmMapLocation_skips_storage Scenario.stringify
                Scenario.mysuruPicked Scenario.mysuru eq_refl) as (Hui & Hls & _).
  split; [exact Hui|].
  cbv zeta. rewrite Hls. split; reflexivity.
Defined.

(** C5 -- a pincode of six letters passes validation: no error is attached
    and the location is saved to the backend. *)
Lemma letters_pincode_accepted :
  let w := Scenario.atAddressForm Scenario.lettersPincode in
  let w' := exec (LocationFilter.onSaveAndContinue Scenario.stringify
                    (LocationFilter.Resolved tt)
                    (LocationFilter.Resolved Scenario.servicesFound)) w in
  eval LocationFilter.validateAddressDetails w = true
  /\ LocationFilter.addressErrors (LocationFilter.ui w') = ∅
  /\ length (List.filter LocationFilter.isSaveCall (LocationFilter.trace w')) = 1
  /\ LocationFilter.localStorage w' !! "deliveryAddress" = Some "{}".
Proof. repeat split. Qed.

(** C9 -- the claim as written has a failed save of the location shown to
    the user.  With the save request failing and the availability check
    succeeding, the handler ends with an empty [error] and no field error:
    the failure is only written to the console. *)
Lemma save_failure_silent_counterexample :
  let w := Scenario.atAddressForm Scenario.completeAddress in
  let w' := exec (LocationFilter.onSaveAndContinue Scenario.stringify
                    (LocationFilter.Rejected Scenario.networkDown)
                    (LocationFilter.Resolved Scenario.servicesFound)) w in
  LocationFilter.error (LocationFilter.ui w') = ""
  /\ LocationFilter.addressErrors (LocationFilter.ui w') = ∅
  /\ length (List.filter LocationFilter.isSaveCall (LocationFilter.trace w')) = 1
  /\ LocationFilter.trace w' !! 1
     = Some (LocationFilter.ConsoleError "Failed to save location to backend:")
  /\ LocationFilter.trace w' !! 3
     = Some (LocationFilter.OnServicesFound [Scenario.washFold]).
Proof. repeat split. Qed.

(** An address that is not found, and a check without a token, are shown. *)
Lemma failures_surfaced_or_absorbed_witness :
  LocationFilter.error (LocationFilter.ui
    (exec (LocationFilter.handleManualAddressSubmit
             Scenario.stringify Scenario.parseFloat (LocationFilter.Resolved []))
          Scenario.typedAddress))
  = "Address not found. Please try a different address."
  /\ JS.truthy_string (LocationFilter.error (LocationFilter.ui
       (exec (LocationFilter.checkServiceAvailability
                (LocationFilter.Resolved Scenario.servicesFound) Scenario.bengaluru)
             Scenario.signedOut))) = true.
Proof.
  pose proof (failures_surfaced_or_absorbed
                Scenario.stringify Scenario.parseFloat Scenario.toFixed
                Scenario.signedOut Scenario.bengaluru) as (_ & _ & _ & Htoken & _).
  split; [reflexivity|].
  exact (Htoken _ eq_refl).
Defined.

(** ** The install hook and its button *)
Section InstallProps.

Import PWA InstallPWAButton.

(** X1 -- a user agent that is Android or iOS is also mobile. *)
Theorem android_or_ios_is_mobile (userAgent : string)
    (Hdevice : isAndroid userAgent || isIOS userAgent = true) :
  isMobile userAgent = true.
Proof.
  revert Hdevice. unfold isMobile, isAndroid, isIOS, test_any_ci.
  cbn [existsb].
  repeat match goal with
         | |- context [test_ci ?p userAgent] => destruct (test_ci p userAgent)
         end; cbn; congruence.
Qed.

Lemma test_ci_middle (p q a b : string) :
  prefix_ci p (q +:+ b) = true -> test_ci p (a +:+ q +:+ b) = true.
Proof.
  generalize (q +:+ b). intros s Hq.
  induction a as [|c a IH].
  - change ("" +:+ s) with s. destruct s; cbn [test_ci]; rewrite Hq; reflexivity.
  - change (String c a +:+ s) with (String c (a +:+ s)).
    cbn [test_ci]. rewrite IH. apply orb_true_r.
Qed.

(** X2 -- the word "android", in any letter case the pattern allows here,
    is found wherever it stands in the user agent. *)
Theorem android_found_anywhere (before after : string) :
  isAndroid (before +:+ "android" +:+ after) = true
  /\ isAndroid (before +:+ "ANDROID" +:+ after) = true
  /\ isMobile (before +:+ "Android" +:+ after) = true.
Proof.
  unfold isMobile, isAndroid, test_any_ci. cbn [existsb].
  rewrite !test_ci_middle by reflexivity. repeat split.
Qed.

(** X3 -- nothing is rendered exactly when the app is installed; otherwise
    at least one of the two buttons is there, and the iOS instructions only
    come with the download button and without the install button. *)
Theorem panel_always_offers_a_way (userAgent : string) (s : State) :
  (renderFor userAgent s = None <-> isInstalled s = true)
  /\ (forall panel, renderFor userAgent s = Some panel ->
        installButton panel || downloadButton panel = true
        /\ (iosInstructions panel = true ->
              downloadButton panel = true /\ installButton panel = false)).
Proof.
  unfold renderFor, render.
  generalize (isAndroid userAgent), (isIOS userAgent). intros android ios.
  destruct (isInstalled s), (canInstall s), android, ios; cbn;
    (split; [split; congruence|]);
    intros panel [=]; subst; cbn;
    (split; [reflexivity|]); intros; try discriminate; split; reflexivity.
Qed.

(** X4 -- after the user dismisses the prompt the hook still says
    [canInstall], so the install button stays; pressing it again shows no
    prompt and no change, only the alert. *)
Theorem dismissed_prompt_leaves_dead_button
    (e : BeforeInstallPromptEvent) (outcome : string) (w : World)
    (Hdismissed : outcome <> "accepted") :
  let w1 := exec (handleBeforeInstallPrompt e) w in
  let w2 := exec (handlePWAInstall outcome) w1 in
  eval (handlePWAInstall outcome) w1 = None
  /\ canInstall (st w2) = true
  /\ isInstalled (st w2) = isInstalled (st w)
  /\ (forall userAgent,
        isInstalled (st w) = false ->
        installButton <$> renderFor userAgent (st w2) = Some true)
  /\ (forall again,
        handlePWAInstall again w2
        = (Some "PWA install not available. You can download the Android APK instead.",
           w2)).
Proof.
  unfold handlePWAInstall, handleBeforeInstallPrompt, installPWA, exec, eval,
    setDeferredPrompt, setCanInstall, setIsInstalled, setItem, perform, on_st,
    modify, gets, mbind, M_bind, mret, M_ret.
  cbn. rewrite (bool_decide_eq_false_2 _ Hdismissed). cbn.
  repeat split.
  intros userAgent Hnot. unfold renderFor, render. cbn. rewrite Hnot.
  reflexivity.
Qed.

Lemma handle_keeps_flag (ev : HookEvent) (w : World) :
  localStorage w !! "pwa-installed" = Some "true" ->
  localStorage (exec (handle ev) w) !! "pwa-installed" = Some "true".
Proof.
  intros Hflag. destruct ev as [p|e| |outcome];
    unfold handle, checkIfInstalled, handleBeforeInstallPrompt,
      handleAppInstalled, installPWA, exec, getItem,
      setDeferredPrompt, setCanInstall, setIsInstalled, setIsStandalone,
      setItem, perform, on_st, modify, gets, mbind, M_bind, mret, M_ret;
    cbn; try exact Hflag.
  - apply lookup_insert_eq.
  - destruct (deferredPrompt (st w)); cbn; [|exact Hflag].
    destruct (bool_decide (outcome = "accepted")); cbn;
      [apply lookup_insert_eq|exact Hflag].
Qed.

(** X5 -- once ["pwa-installed"] is stored as ["true"], no sequence of
    checks, window events and install calls removes it, and every later
    [checkIfInstalled] reports the app installed, whatever the platform
    says. *)
Theorem persisted_install_is_sticky (evs : list HookEvent) (w : World)
    (Hflag : localStorage w !! "pwa-installed" = Some "true") :
  let w' := handleAll evs w in
  localStorage w' !! "pwa-installed" = Some "true"
  /\ forall p, isInstalled (st (exec (checkIfInstalled p) w')) = true.
Proof.
  cbn zeta.
  assert (Hkept : localStorage (handleAll evs w) !! "pwa-installed" = Some "true").
  { revert w Hflag. induction evs as [|ev evs IH]; intros w Hflag; cbn.
    - exact Hflag.
    - apply IH, handle_keeps_flag, Hflag. }
  split; [exact Hkept|].
  intros p. unfold checkIfInstalled, exec, getItem, setIsInstalled,
    setIsStandalone, on_st, modify, gets, mbind, M_bind. cbn.
  rewrite Hkept. rewrite bool_decide_eq_true_2 by reflexivity.
  apply orb_true_r.
Qed.

(** The hook's evidence for "installed": the stored flag or standalone mode. *)
Lemma handle_keeps_evidence (ev : HookEvent) (w : World) :
  (isInstalled (st w) = true ->
     localStorage w !! "pwa-installed" = Some "true" \/ isStandalone (st w) = true) ->
  let w' := exec (handle ev) w in
  isInstalled (st w') = true ->
  localStorage w' !! "pwa-installed" = Some "true" \/ isStandalone (st w') = true.
Proof.
  intros Hinv. destruct ev as [p|e| |outcome];
    unfold handle, checkIfInstalled, handleBeforeInstallPrompt,
      handleAppInstalled, installPWA, exec, getItem,
      setDeferredPrompt, setCanInstall, setIsInstalled, setIsStandalone,
      setItem, perform, on_st, modify, gets, mbind, M_bind, mret, M_ret;
    cbn.
  - destruct (displayModeStandalone p || navigatorStandalone p); cbn;
      [right; reflexivity|].
    intros Hflag%bool_decide_eq_true. left. exact Hflag.
  - exact Hinv.
  - intros _. left. apply lookup_insert_eq.
  - destruct (deferredPrompt (st w)); cbn; [|exact Hinv].
    destruct (bool_decide (outcome = "accepted")); cbn; [|exact Hinv].
    intros _. left. apply lookup_insert_eq.
Qed.

(** X6 -- starting from the initial state, whatever happens to the hook, it
    reports the app installed only while the flag is stored as ["true"] or
    the last check saw standalone mode. *)
Theorem installed_only_with_evidence
    (evs : list HookEvent) (storage : gmap string string) :
  let w' := handleAll evs (mkWorld initial storage []) in
  isInstalled (st w') = true ->
  localStorage w' !! "pwa-installed" = Some "true" \/ isStandalone (st w') = true.
Proof.
  cbn zeta.
  assert (Hgen : forall w,
    (isInstalled (st w) = true ->
       localStorage w !! "pwa-installed" = Some "true" \/ isStandalone (st w) = true) ->
    isInstalled (st (handleAll evs w)) = true ->
    localStorage (handleAll evs w) !! "pwa-installed" = Some "true"
    \/ isStandalone (st (handleAll evs w)) = true).
  { induction evs as [|ev evs IH]; intros w Hinv; cbn.
    - exact Hinv.
    - apply IH. apply handle_keeps_evidence. exact Hinv. }
  apply Hgen. cbn. discriminate.
Qed.

End InstallProps.

(** A Pixel phone is Android, hence mobile. *)
Lemma android_or_ios_is_mobile_witness :
  PWA.isMobile Scenario.pixelChrome = true.
Proof. exact (android_or_ios_is_mobile Scenario.pixelChrome eq_refl). Defined.

(** The prompt is captured, shown once and dismissed. *)
Lemma dismissed_prompt_leaves_dead_button_witness :
  PWA.canInstall (PWA.st
    (exec (InstallPWAButton.handlePWAInstall "dismissed")
       (exec (PWA.handleBeforeInstallPrompt Scenario.promptEvent)
          Scenario.freshHook))) = true.
Proof.
  refine (proj1 (proj2 (dismissed_prompt_leaves_dead_button
                          Scenario.promptEvent "dismissed" Scenario.freshHook _))).
  discriminate.
Defined.

(** The app was installed earlier; the page is opened in a browser tab, and
    a new prompt is dismissed. *)
Lemma persisted_install_is_sticky_witness :
  PWA.isInstalled (PWA.st
    (exec (PWA.checkIfInstalled (PWA.mkPlatform false false))
       (PWA.handleAll
          [PWA.CheckIfInstalled (PWA.mkPlatform false false);
           PWA.BeforeInstallPrompt Scenario.promptEvent;
           PWA.InstallPWA "dismissed"]
          (exec PWA.handleAppInstalled Scenario.freshHook)))) = true.
Proof.
  exact (proj2 (persisted_install_is_sticky
                  [PWA.CheckIfInstalled (PWA.mkPlatform false false);
                   PWA.BeforeInstallPrompt Scenario.promptEvent;
                   PWA.InstallPWA "dismissed"]
                  (exec PWA.handleAppInstalled Scenario.freshHook) eq_refl)
               (PWA.mkPlatform false false)).
Defined.

(** A browser tab reports installed after the platform's [appinstalled]. *)
Lemma installed_only_with_evidence_witness :
  PWA.localStorage (PWA.handleAll [PWA.AppInstalled] Scenario.freshHook)
    !! "pwa-installed" = Some "true"
  \/ PWA.isStandalone (PWA.st (PWA.handleAll [PWA.AppInstalled] Scenario.freshHook))
     = true.
Proof. exact (installed_only_with_evidence [PWA.AppInstalled] ∅ eq_refl). Defined.

(** ** The location component: mount, reset, map clicks, saving *)
Section LocationFlowProps.

Import LocationFilter.

Variable JSON_stringify : JS.value -> string.
Variable parseFloat : string -> float.
Variable toFixed : float -> nat -> string.
Variable JSON_parse : string -> option Location.

Ltac run :=
  unfold exec, eval, onSaveAndContinue, confirmMapLocation, handleMapClick,
    onMount, onCustomerLocationChange, resetLocation,
    handleManualAddressSubmit, detectCurrentLocation, saveLocationToBackend,
    checkServiceAvailability, validateAddressDetails,
    setCustomerLocation, setIsDetectingLocation, setIsCheckingAvailability,
    setAvailabilityData, setError, setManualAddress, setShowManualInput,
    setShowMap, setMapCenter, setSelectedMapLocation, setShowAddressForm,
    setAddressDetails, setAddressErrors, getItem, setItem, removeItem,
    perform, on_ui, modify, gets, mbind, M_bind, mret, M_ret;
  cbn [snd fst ui localStorage trace].

Ltac split_check check :=
  destruct check as [?data|?err]; cbn;
  try match goal with
      | |- context [servicesAvailable (availability ?d)] =>
          destruct (servicesAvailable (availability d)); cbn
      end.

(** X7 -- when the ["customerLocation"] slot holds the serialisation of a
    location, mounting the component restores that location.  In normal
    mode the parent is told once and local storage is left alone; in
    change-location mode ([startInMap]) nothing is told to the parent and no
    request is made: the map is opened, centred on the saved
    coordinates. *)
Theorem saved_location_restored_on_mount
    (saved : Location)
    (check : Settled ServiceAvailabilityResponse AxiosError) (w : World)
    (Hslot : localStorage w !! "customerLocation"
             = Some (JSON_stringify (Location_to_value saved)))
    (Hnonempty : JS.truthy_string (JSON_stringify (Location_to_value saved)) = true)
    (Hround : JSON_parse (JSON_stringify (Location_to_value saved)) = Some saved) :
  (let w' := exec (onMount JSON_parse false check) w in
   customerLocation (ui w') = Some saved
   /\ List.filter isLocationSet (trace w')
      = List.filter isLocationSet (trace w) ++ [OnLocationSet saved]
   /\ showMap (ui w') = showMap (ui w)
   /\ localStorage w' = localStorage w)
  /\ (let w' := exec (onMount JSON_parse true check) w in
      customerLocation (ui w') = Some saved
      /\ trace w' = trace w
      /\ showMap (ui w') = true
      /\ mapCenter (ui w') = mkLatLng (lat saved) (lng saved)
      /\ localStorage w' = localStorage w).
Proof.
  split; run; rewrite Hslot; cbn; rewrite Hnonempty, Hround; cbn.
  - destruct (JS.truthy_ostring (localStorage w !! "token")); cbn.
    + split_check check; rewrite ?List.filter_app; cbn;
        rewrite ?app_nil_r; repeat split.
    + rewrite List.filter_app. repeat split.
  - repeat split.
Qed.

(** X8 -- with nothing (or the empty string) in the slot, mounting sets no
    location, tells the parent nothing and makes no request; with a slot
    that cannot be parsed the same holds, the failure going to the console
    only. *)
Theorem nothing_restored_without_saved_location
    (startInMap : bool)
    (check : Settled ServiceAvailabilityResponse AxiosError) (w : World) :
  let w' := exec (onMount JSON_parse startInMap check) w in
  (JS.truthy_ostring (localStorage w !! "customerLocation") = false ->
     trace w' = trace w
     /\ customerLocation (ui w') = customerLocation (ui w)
     /\ error (ui w') = error (ui w))
  /\ (forall text,
        localStorage w !! "customerLocation" = Some text ->
        JS.truthy_string text = true ->
        JSON_parse text = None ->
        trace w' = trace w ++ [ConsoleError "Error parsing saved location:"]
        /\ customerLocation (ui w') = customerLocation (ui w)
        /\ error (ui w') = error (ui w)).
Proof.
  split.
  - intros Hnone. run. rewrite Hnone. destruct startInMap; cbn; repeat split.
  - intros text Hslot Htext Hparse. run. rewrite Hslot. cbn.
    rewrite Htext, Hparse. destruct startInMap; cbn; repeat split.
Qed.

(** X9 -- after the mount effect has restored a saved location, the effect
    on [customerLocation] runs the availability check for it.  With a token
    stored, a normal mount therefore posts the check twice and calls back
    twice; a mount in change-location mode posts it once and calls back
    once. *)
Theorem mount_checks_availability_again
    (saved : Location)
    (check1 check2 : Settled ServiceAvailabilityResponse AxiosError) (w : World)
    (Hslot : localStorage w !! "customerLocation"
             = Some (JSON_stringify (Location_to_value saved)))
    (Hnonempty : JS.truthy_string (JSON_stringify (Location_to_value saved)) = true)
    (Hround : JSON_parse (JSON_stringify (Location_to_value saved)) = Some saved)
    (Htoken : JS.truthy_ostring (localStorage w !! "token") = true) :
  let count f w' := length (List.filter f (trace w')) in
  (let w' := exec (onMount JSON_parse false check1 ;;
                   onCustomerLocationChange check2) w in
   count isAvailabilityCall w' = count isAvailabilityCall w + 2
   /\ count isAvailabilityCallback w' = count isAvailabilityCallback w + 2
   /\ count isLocationSet w' = count isLocationSet w + 1)
  /\ (let w' := exec (onMount JSON_parse true check1 ;;
                      onCustomerLocationChange check2) w in
      count isAvailabilityCall w' = count isAvailabilityCall w + 1
      /\ count isAvailabilityCallback w' = count isAvailabilityCallback w + 1
      /\ count isLocationSet w' = count isLocationSet w).
Proof.
  cbn zeta. split; run; rewrite Hslot; cbn; rewrite Hnonempty, Hround; cbn;
    rewrite ?Htoken; cbn.
  - split_check check1; rewrite ?Htoken; cbn; split_check check2;
      rewrite !List.filter_app, !length_app; cbn;
      rewrite ?bool_decide_eq_true_2 by reflexivity; cbn; repeat split; lia.
  - split_check check2;
      rewrite !List.filter_app, !length_app; cbn;
      rewrite ?bool_decide_eq_true_2 by reflexivity; cbn; repeat split; lia.
Qed.

(** X10 -- [resetLocation] forgets the location everywhere: the component
    holds none, the slot is removed (the token stays), and a later mount
    finds nothing to restore. *)
Theorem reset_forgets_location (w : World) :
  let w' := exec resetLocation w in
  customerLocation (ui w') = None
  /\ availabilityData (ui w') = None
  /\ selectedMapLocation (ui w') = None
  /\ error (ui w') = ""
  /\ localStorage w' !! "customerLocation" = None
  /\ localStorage w' !! "token" = localStorage w !! "token"
  /\ trace w' = trace w
  /\ (forall startInMap check s0,
        let remounted :=
          exec (onMount JSON_parse startInMap check)
               (mkWorld s0 (localStorage w') []) in
        customerLocation (ui remounted) = customerLocation s0
        /\ trace remounted = []).
Proof.
  run. repeat split.
  - apply lookup_delete_eq.
  - apply lookup_delete_ne. discriminate.
  - rewrite lookup_delete_eq. destruct startInMap; reflexivity.
  - rewrite lookup_delete_eq. destruct startInMap; reflexivity.
Qed.

(** X11 -- no handler leaves its own spinner on, with one exception: the
    detection flag is off after [detectCurrentLocation] and the checking
    flag is off after [checkServiceAvailability], however the requests
    settle; a manual address that is found leaves the checking flag on, and
    it is the availability check run for the new location that turns it
    off. *)
Theorem spinners_turned_off (w : World) :
  (forall geo rev,
     isDetectingLocation (ui (exec (detectCurrentLocation JSON_stringify geo rev) w))
     = false)
  /\ (forall post location,
        isCheckingAvailability (ui (exec (checkServiceAvailability post location) w))
        = false)
  /\ (forall geocode,
        let w' := exec (handleManualAddressSubmit JSON_stringify parseFloat geocode) w in
        isCheckingAvailability (ui w') =
          if JS.truthy_string (JS.trim (manualAddress (ui w))) then
            match geocode with
            | Resolved (_ :: _) => true
            | _ => false
            end
          else isCheckingAvailability (ui w))
  /\ (forall result rest check,
        JS.truthy_string (JS.trim (manualAddress (ui w))) = true ->
        isCheckingAvailability (ui (exec
          (handleManualAddressSubmit JSON_stringify parseFloat
             (Resolved (result :: rest)) ;;
           onCustomerLocationChange check) w))
        = false).
Proof.
  split; [|split; [|split]].
  - intros geo rev. run. destruct geo as [l|e]; cbn; [destruct rev|]; reflexivity.
  - intros post location. run.
    destruct (JS.truthy_ostring (localStorage w !! "token")); cbn;
      [split_check post|]; reflexivity.
  - intros geocode. run.
    destruct (JS.truthy_string (JS.trim (manualAddress (ui w)))); cbn;
      [|reflexivity].
    destruct geocode as [[|result rest]|e]; reflexivity.
  - intros result rest check Hq. run. rewrite Hq. cbn.
    rewrite lookup_insert_ne by discriminate.
    destruct (JS.truthy_ostring (localStorage w !! "token")); cbn;
      [split_check check|]; reflexivity.
Qed.

Lemma label_truthy (a b : string) :
  JS.truthy_string (a +:+ ", " +:+ b) = true.
Proof. destruct a; reflexivity. Qed.

(** X12 -- a click on the map only selects: the selected location has the
    clicked coordinates and a non-empty label (the display name of the
    reverse lookup when it gives a non-empty one, else the coordinates); the
    confirmed location, local storage and the error message are untouched
    and the parent hears nothing.  A click without coordinates does
    nothing. *)
Theorem map_click_only_selects
    (rev : Settled ReverseResult unit) (w : World) :
  exec (handleMapClick toFixed None rev) w = w
  /\ forall p,
       let w' := exec (handleMapClick toFixed (Some p) rev) w in
       let label := toFixed (ll_lat p) 4 +:+ ", " +:+ toFixed (ll_lng p) 4 in
       (exists text,
          selectedMapLocation (ui w')
          = Some (mkLocation (ll_lat p) (ll_lng p) (Some text))
          /\ JS.truthy_string text = true
          /\ text = match rev with
                    | Resolved data => JS.or_string (rr_display_name data) label
                    | Rejected _ => label
                    end)
       /\ customerLocation (ui w') = customerLocation (ui w)
       /\ error (ui w') = error (ui w)
       /\ localStorage w' = localStorage w
       /\ List.filter isLocationSet (trace w') = List.filter isLocationSet (trace w)
       /\ List.filter isAvailabilityCallback (trace w')
          = List.filter isAvailabilityCallback (trace w).
Proof.
  split; [destruct w as [[] ? ?]; reflexivity|].
  intros p. run. destruct rev as [data|e]; cbn;
    rewrite ?List.filter_app; cbn; rewrite ?app_nil_r; repeat split;
    eexists; repeat split.
  - apply or_string_truthy, label_truthy.
  - apply label_truthy.
Qed.

Lemma blank_form_errors :
  size (addressErrorsOf noAddressDetails) = 5.
Proof. vm_compute. reflexivity. Qed.

(** X13 -- when the address-detail lookup failed after a detection, "Save
    and Continue" on the untouched form is refused with all five field
    errors: nothing is sent, nothing is stored and the form stays open. *)
Theorem untouched_blank_form_is_refused
    (location : Location) (e : unit)
    (save : Settled unit AxiosError)
    (check : Settled ServiceAvailabilityResponse AxiosError) (w : World) :
  let w1 := exec (detectCurrentLocation JSON_stringify
                    (Resolved location) (Rejected e)) w in
  let w2 := exec (onSaveAndContinue JSON_stringify save check) w1 in
  trace w2 = trace w1
  /\ localStorage w2 = localStorage w1
  /\ size (addressErrors (ui w2)) = 5
  /\ showAddressForm (ui w2) = true
  /\ customerLocation (ui w2) = Some location.
Proof.
  intros w1.
  assert (H1 : customerLocation (ui w1) = Some location
               /\ addressDetails (ui w1) = noAddressDetails
               /\ showAddressForm (ui w1) = true).
  { subst w1. run. cbn. repeat split. }
  destruct H1 as (Hlocation & Hdetails & Hform). clearbody w1.
  run. rewrite Hlocation, Hdetails. cbn [snd fst ui localStorage trace].
  rewrite addressErrorsOf_size. cbn -[addressErrorsOf size].
  rewrite blank_form_errors, Hform, Hlocation. repeat split.
Qed.

(** X14 -- when the looked-up address has no house number, the prefilled
    form is refused as it stands: the house-number error is attached and
    nothing is sent. *)
Theorem prefill_without_house_number_is_refused
    (location : Location) (found : ReverseResult) (addr : NominatimAddress)
    (save : Settled unit AxiosError)
    (check : Settled ServiceAvailabilityResponse AxiosError) (w : World)
    (Haddr : rr_address found = Some addr)
    (Hnone : JS.truthy_ostring (house_number addr) = false) :
  let w1 := exec (detectCurrentLocation JSON_stringify
                    (Resolved location) (Resolved found)) w in
  let w2 := exec (onSaveAndContinue JSON_stringify save check) w1 in
  houseNumber (addressDetails (ui w1)) = Some ""
  /\ trace w2 = trace w1
  /\ addressErrors (ui w2) !! "houseNumber"
     = Some "House/Flat/Block No. is required".
Proof.
  assert (Hhouse : JS.or_string (house_number addr) "" = "").
  { unfold JS.or_string. destruct (house_number addr) as [v|]; [|reflexivity].
    cbn in Hnone. rewrite Hnone. reflexivity. }
  intros w1.
  assert (H1 : customerLocation (ui w1) = Some location
               /\ houseNumber (addressDetails (ui w1)) = Some "").
  { subst w1. run. rewrite Haddr. cbn. rewrite Hhouse. repeat split. }
  destruct H1 as (Hlocation & Hblank). clearbody w1.
  assert (Hbad : JS.blank (houseNumber (addressDetails (ui w1))) = true).
  { rewrite Hblank. reflexivity. }
  split; [exact Hblank|].
  run. rewrite Hlocation. cbn [snd fst ui localStorage trace].
  rewrite addressErrorsOf_size, Hbad. cbn -[addressErrorsOf].
  split; [reflexivity|].
  unfold addressErrorsOf. rewrite Hbad. cbn zeta.
  repeat match goal with
         | |- context [if ?b then _ else _] => destruct b
         end; by simplify_map_eq.
Qed.

(** X15 -- [saveLocationToBackend] never touches the component state and
    makes at most one request.  Without a token it does nothing at all;
    when the request fails local storage is unchanged; only a successful
    save with address details writes, and then only the ["deliveryAddress"]
    slot. *)
Theorem save_writes_only_delivery_address
    (post : Settled unit AxiosError) (location : Location)
    (details : option AddressDetails) (w : World) :
  let w' := exec (saveLocationToBackend JSON_stringify post location details) w in
  ui w' = ui w
  /\ length (List.filter isRequest (trace w'))
     <= length (List.filter isRequest (trace w)) + 1
  /\ (JS.truthy_ostring (localStorage w !! "token") = false -> w' = w)
  /\ (forall e, post = Rejected e -> localStorage w' = localStorage w)
  /\ (forall key, key <> "deliveryAddress" ->
        localStorage w' !! key = localStorage w !! key)
  /\ (JS.truthy_ostring (localStorage w !! "token") = true ->
      forall d u, details = Some d -> post = Resolved u ->
        localStorage w' !! "deliveryAddress"
        = Some (JSON_stringify (detailedAddressOf location d))).
Proof.
  run. destruct (JS.truthy_ostring (localStorage w !! "token")); cbn.
  - destruct post as [u|e], details as [d|]; cbn;
      rewrite ?List.filter_app, ?length_app; cbn; repeat split;
      try lia; try discriminate; try congruence.
    + intros key Hkey. apply lookup_insert_ne. congruence.
    + intros _ d' u' [= <-] _. apply lookup_insert_eq.
  - repeat split; try lia; try discriminate.
Qed.

(** X16 -- the details derived from a looked-up address define every field
    (missing parts become the empty string); the city is the first
    non-empty one of city, town, village and county, the landmark the first
    non-empty one of landmark and public building, and the street joins the
    non-empty ones of road, suburb and neighbourhood.  Without a looked-up
    address no field is defined. *)
Theorem derived_details_fallbacks (addr : NominatimAddress) :
  let d := deriveAddressDetails (Some addr) in
  city d = Some (default "" (head (JS.filter_Boolean
                   [na_city addr; town addr; village addr; county addr])))
  /\ landmark d = Some (default "" (head (JS.filter_Boolean
                          [na_landmark addr; public_building addr])))
  /\ street d = Some (JS.join ", " (JS.filter_Boolean
                        [road addr; suburb addr; neighbourhood addr]))
  /\ (is_Some (houseNumber d) /\ is_Some (state d) /\ is_Some (zip d))
  /\ deriveAddressDetails None = noAddressDetails.
Proof.
  cbn. unfold JS.or_else, JS.or_string, JS.truthy_ostring, JS.filter_Boolean.
  repeat split; try (eexists; reflexivity).
  - destruct (na_city addr) as [[|]|], (town addr) as [[|]|],
      (village addr) as [[|]|], (county addr) as [[|]|]; reflexivity.
  - destruct (na_landmark addr) as [[|]|],
      (public_building addr) as [[|]|]; reflexivity.
Qed.

(** X26 -- the availability check changes only its own cells (the checking
    flag, the error message, the availability data): the customer location,
    the map selection, the address form and local storage are as before. *)
Theorem availability_check_keeps_location
    (post : Settled ServiceAvailabilityResponse AxiosError)
    (location : Location) (w : World) :
  let w' := exec (checkServiceAvailability post location) w in
  localStorage w' = localStorage w
  /\ customerLocation (ui w') = customerLocation (ui w)
  /\ selectedMapLocation (ui w') = selectedMapLocation (ui w)
  /\ addressDetails (ui w') = addressDetails (ui w)
  /\ addressErrors (ui w') = addressErrors (ui w)
  /\ showAddressForm (ui w') = showAddressForm (ui w)
  /\ showMap (ui w') = showMap (ui w)
  /\ List.filter isLocationSet (trace w') = List.filter isLocationSet (trace w).
Proof.
  run. destruct (JS.truthy_ostring (localStorage w !! "token")); cbn;
    [split_check post|]; rewrite ?List.filter_app; cbn;
    rewrite ?app_nil_r; repeat split.
Qed.

(** X27 -- a click on the map followed by "Confirm" makes the clicked
    point the customer location, opens the address form and tells the
    parent exactly once; "Confirm" without a selection does nothing. *)
Theorem click_then_confirm
    (p : LatLng) (rev : Settled ReverseResult unit) (w : World) :
  (selectedMapLocation (ui w) = None -> exec confirmMapLocation w = w)
  /\ (let w' := exec (handleMapClick toFixed (Some p) rev ;; confirmMapLocation) w in
      customerLocation (ui w') = selectedMapLocation (ui w')
      /\ lat <$> customerLocation (ui w') = Some (ll_lat p)
      /\ lng <$> customerLocation (ui w') = Some (ll_lng p)
      /\ showAddressForm (ui w') = true
      /\ exists told,
           List.filter isLocationSet (trace w')
           = List.filter isLocationSet (trace w) ++ [OnLocationSet told]
           /\ customerLocation (ui w') = Some told).
Proof.
  split.
  - intros Hnone. run. rewrite Hnone. destruct w as [[] ? ?]; reflexivity.
  - run. destruct rev as [data|e]; cbn; rewrite ?List.filter_app; cbn;
      rewrite ?app_nil_r; repeat split; eexists; split; reflexivity.
Qed.

(** X28 -- a manual address that is empty or only white space is not
    geocoded: "Please enter an address" is shown and nothing else
    changes. *)
Theorem blank_manual_address_not_geocoded
    (geocode : Settled (list SearchResult) unit) (w : World)
    (Hblank : JS.truthy_string (JS.trim (manualAddress (ui w))) = false) :
  exec (handleManualAddressSubmit JSON_stringify parseFloat geocode) w
  = mkWorld (set_error "Please enter an address" (ui w))
            (localStorage w) (trace w).
Proof. run. rewrite Hblank. reflexivity. Qed.

End LocationFlowProps.

(** ** The map of nearby washermen: fetching and screens *)
Section NearbyMapFlowProps.

Import NearbyMap.

Variable calculateDistance : float -> float -> float -> float -> float.
Variable toFixed : float -> nat -> string.

Ltac run :=
  unfold exec, eval, getLocationAndSave, locationFailed, fetchNearbyWashermen,
    fetchFailed, setCustomerLocation, setWashermen, setError, setLoading,
    setNoWashermenFound, getItem, perform, on_ui, modify, gets,
    mbind, M_bind, mret, M_ret;
  cbn [snd fst ui localStorage trace].

(** X17 -- when the answer is not [ok], status 401 shows "Please sign in to
    view nearby washermen" and every other status "HTTP error! status: N";
    the body is not read and the washermen held are kept. *)
Theorem fetch_maps_status_to_message
    (res : Response) (lat lng : float) (w : World)
    (Hnot_ok : ok res = false) :
  let w' := exec (fetchNearbyWashermen (LocationFilter.Resolved res) lat lng) w in
  error (ui w') =
    Some (if bool_decide (status res = 401%Z)
          then "Please sign in to view nearby washermen"
          else "HTTP error! status: " +:+ pretty (status res))
  /\ washermen (ui w') = washermen (ui w)
  /\ noWashermenFound (ui w') = noWashermenFound (ui w)
  /\ w' = exec (fetchNearbyWashermen
                  (LocationFilter.Resolved
                     (mkResponse false (status res)
                        (LocationFilter.Resolved []))) lat lng) w.
Proof.
  run. rewrite Hnot_ok. cbn.
  destruct (bool_decide (status res = 401%Z)); cbn; repeat split.
Qed.

(** X18 -- every call makes exactly one request, and makes it whether or
    not a token is stored: the request carries what local storage holds
    under ["token"], possibly nothing. *)
Theorem fetch_requests_once_with_or_without_token
    (res : LocationFilter.Settled Response LocationFilter.JsError)
    (lat lng : float) (w : World) :
  let w' := exec (fetchNearbyWashermen res lat lng) w in
  List.filter isFetch (trace w')
  = List.filter isFetch (trace w)
    ++ [ApiFetchNearby lat lng (localStorage w !! "token")]
  /\ localStorage w' = localStorage w
  /\ customerLocation (ui w') = customerLocation (ui w).
Proof.
  run. destruct res as [[o st [data|e]]|e]; cbn;
    try destruct o; cbn;
    try destruct (bool_decide (st = 401%Z)); cbn;
    try destruct (bool_decide (length data = 0)); cbn;
    rewrite ?List.filter_app; cbn; rewrite ?app_nil_r; repeat split.
Qed.

(** X19 -- of an [ok] answer, an empty array only raises the
    no-washermen flag and keeps the list held, a non-empty array replaces
    the list and leaves the flag as it was, and a body that cannot be read
    shows a non-empty error and keeps both. *)
Theorem fetch_stores_answer
    (st : Z) (lat lng : float) (w : World) :
  let fetched body :=
    ui (exec (fetchNearbyWashermen
                (LocationFilter.Resolved (mkResponse true st body)) lat lng) w) in
  (washermen (fetched (LocationFilter.Resolved [])) = washermen (ui w)
   /\ noWashermenFound (fetched (LocationFilter.Resolved [])) = true
   /\ error (fetched (LocationFilter.Resolved [])) = error (ui w))
  /\ (forall first rest,
        washermen (fetched (LocationFilter.Resolved (first :: rest))) = first :: rest
        /\ noWashermenFound (fetched (LocationFilter.Resolved (first :: rest)))
           = noWashermenFound (ui w)
        /\ error (fetched (LocationFilter.Resolved (first :: rest))) = error (ui w))
  /\ (forall e,
        washermen (fetched (LocationFilter.Rejected e)) = washermen (ui w)
        /\ noWashermenFound (fetched (LocationFilter.Rejected e))
           = noWashermenFound (ui w)
        /\ JS.truthy_ostring (error (fetched (LocationFilter.Rejected e))) = true).
Proof.
  cbn zeta. run. cbn. repeat split.
  apply or_string_truthy. reflexivity.
Qed.

(** X20 -- the mount effect always ends the loading state.  When the
    location cannot be obtained, or saving it fails, no washermen are
    requested and the error screen shows a non-empty message. *)
Theorem mount_failure_shows_error
    (isLoaded loadError : bool)
    (res : LocationFilter.Settled Response LocationFilter.JsError) (w : World) :
  (forall geo save,
     loading (ui (exec (getLocationAndSave geo save res) w)) = false)
  /\ (forall err save,
        let w' := exec (getLocationAndSave (LocationFilter.Rejected err) save res) w in
        List.filter isFetch (trace w') = List.filter isFetch (trace w)
        /\ exists message,
             render calculateDistance toFixed isLoaded loadError (ui w')
             = ErrorScreen message
             /\ JS.truthy_string message = true)
  /\ (forall location err,
        let w' := exec (getLocationAndSave (LocationFilter.Resolved location)
                          (LocationFilter.Rejected err) res) w in
        List.filter isFetch (trace w') = List.filter isFetch (trace w)
        /\ customerLocation (ui w') = Some location
        /\ exists message,
             render calculateDistance toFixed isLoaded loadError (ui w')
             = ErrorScreen message
             /\ JS.truthy_string message = true).
Proof.
  assert (Hmsg : forall err,
            JS.truthy_string
              (JS.or_string (LocationFilter.err_message err)
                 "Location access denied. Please enable GPS and refresh.")
            = true).
  { intros err. apply or_string_truthy. reflexivity. }
  split; [|split].
  - intros geo save. run.
    destruct geo as [l|e]; cbn; [|reflexivity].
    destruct save as [u|e]; cbn; [|reflexivity].
    destruct res as [[o st [data|e]]|e]; cbn;
      try destruct o; cbn;
      try destruct (bool_decide (st = 401%Z)); cbn;
      try destruct (bool_decide (length data = 0)); reflexivity.
  - intros err save. run. rewrite !List.filter_app. cbn.
    rewrite !app_nil_r. split; [reflexivity|].
    unfold render. cbn. rewrite Hmsg.
    eexists. split; [reflexivity|]. apply Hmsg.
  - intros location err. run. rewrite !List.filter_app. cbn.
    rewrite !app_nil_r. split; [reflexivity|]. split; [reflexivity|].
    unfold render. cbn. rewrite Hmsg.
    eexists. split; [reflexivity|]. apply Hmsg.
Qed.

(** X21 -- a mount where everything succeeds ends on the map: with the
    markers of the washermen answered, or, for an empty answer, with the
    no-washermen overlay; while the map library is not loaded the loading
    screen for it is shown instead. *)
Theorem mount_success_shows_map
    (customer : LatLng) (u : unit) (st : Z) (data : list Washerman)
    (storage : gmap string string) :
  let w' := exec (getLocationAndSave
                    (LocationFilter.Resolved customer) (LocationFilter.Resolved u)
                    (LocationFilter.Resolved
                       (mkResponse true st (LocationFilter.Resolved data))))
                 (mkWorld initial storage []) in
  render calculateDistance toFixed true false (ui w')
  = match data with
    | [] => NoWashermenOverlay customer
    | _ :: _ =>
        MapWithMarkers customer
          (renderWashermen calculateDistance toFixed customer data)
    end
  /\ render calculateDistance toFixed false false (ui w') = MapsLoading
  /\ List.filter isFetch (trace w')
     = [ApiFetchNearby (c_lat customer) (c_lng customer) (storage !! "token")].
Proof.
  run. destruct data as [|first rest]; cbn; repeat split.
Qed.

End NearbyMapFlowProps.

(** ** The slots page: dates, stale answers, slot chips *)
Section NearbySlotsFlowProps.

Import NearbySlots.

Ltac run :=
  unfold exec, eval, handleDateChange, handleWashermanSelect,
    getLocationAndSave, locationFailed, fetchNearbyWashermen,
    fetchFailed, setCustomerLocation, setWashermen, setSelectedDate, setError,
    setLoading, setNoWashermenFound, setSelectedWasherman, getItem, perform,
    on_ui, modify, gets, mbind, M_bind, mret, M_ret;
  cbn [snd fst ui localStorage trace].

Ltac split_res res :=
  destruct res as [[?o ?st [?data|?e]]|?e]; cbn;
  try match goal with o : bool |- _ => destruct o; cbn end;
  try match goal with
      | |- context [bool_decide (?st = 401%Z)] =>
          destruct (bool_decide (st = 401%Z)); cbn
      end;
  try match goal with
      | |- context [bool_decide (length ?data = 0)] =>
          destruct (bool_decide (length data = 0)); cbn
      end.

(** X22 -- choosing a date stores the new date but requests the washermen
    with the date of the render in which the choice was made, the previous
    one: the first choice requests without any date.  Without a customer
    location nothing is requested. *)
Theorem date_change_requests_previous_date
    (date : string)
    (res : LocationFilter.Settled Response LocationFilter.JsError) (w : World) :
  let w' := exec (handleDateChange date res) w in
  selectedDate (ui w') = date
  /\ List.filter isFetch (trace w')
     = List.filter isFetch (trace w)
       ++ match customerLocation (ui w) with
          | Some c =>
              [ApiFetchNearby (lat c) (lng c)
                 (if JS.truthy_string (selectedDate (ui w))
                  then Some (selectedDate (ui w)) else None)
                 (localStorage w !! "token")]
          | None => []
          end.
Proof.
  run. destruct (customerLocation (ui w)) as [c|]; cbn.
  - split_res res; rewrite ?List.filter_app; cbn; rewrite ?app_nil_r;
      repeat split.
  - rewrite app_nil_r. repeat split.
Qed.

(** X23 -- an empty answer to a date change does not empty the list: the
    washermen fetched before stay, so the list column keeps showing one
    entry for each of them instead of the "no washermen" notice. *)
Theorem empty_answer_keeps_stale_list
    (date : string) (st : Z) (w : World) (c : LatLng)
    (Hlocation : customerLocation (ui w) = Some c)
    (Hheld : washermen (ui w) <> []) :
  let w' := exec (handleDateChange date
                    (LocationFilter.Resolved
                       (mkResponse true st (LocationFilter.Resolved [])))) w in
  washermen (ui w') = washermen (ui w)
  /\ noWashermenFound (ui w') = true
  /\ renderList date (washermen (ui w'))
     = Entries (renderListItem date <$> washermen (ui w)).
Proof.
  run. rewrite Hlocation. cbn.
  rewrite bool_decide_eq_true_2 by reflexivity. cbn.
  repeat split.
  unfold renderList. destruct (washermen (ui w)); [congruence|reflexivity].
Qed.

(** X24 -- the slot chips account for every slot: at most three time
    ranges are shown, the first ones in order, and the "+N more" note is
    there exactly beyond three slots, with N the number left out; a
    washerman without slots gets no chips. *)
Theorem slot_preview_accounts_for_all (washerman : Washerman) :
  match slotPreview washerman with
  | Some (shown, more) =>
      exists slots,
        availableSlots washerman = Some slots
        /\ slots <> []
        /\ shown = timeRange <$> take 3 slots
        /\ length shown <= 3
        /\ length shown + default 0 more = length slots
        /\ (more = None <-> length slots <= 3)
  | None => availableSlots washerman = None \/ availableSlots washerman = Some []
  end.
Proof.
  unfold slotPreview.
  destruct (availableSlots washerman) as [[|slot slots]|];
    [right; reflexivity| |left; reflexivity].
  exists (slot :: slots). split; [reflexivity|]. split; [discriminate|].
  split; [reflexivity|].
  rewrite length_fmap, length_take.
  generalize (length (slot :: slots)). intros n.
  destruct (bool_decide (3 < n)) eqn:Hmore; unfold default, from_option, id.
  - apply bool_decide_eq_true in Hmore.
    repeat split; try lia. discriminate.
  - apply bool_decide_eq_false in Hmore.
    repeat split; try lia.
Qed.


End NearbySlotsFlowProps.

(** ** More scenarios, run *)

(** A fresh browser tab on a Pixel: only the download button. *)
Lemma panel_always_offers_a_way_witness :
  InstallPWAButton.renderFor Scenario.pixelChrome PWA.initial
  = Some (InstallPWAButton.mkPanel false true false)
  /\ InstallPWAButton.installButton (InstallPWAButton.mkPanel false true false)
     || InstallPWAButton.downloadButton (InstallPWAButton.mkPanel false true false)
     = true.
Proof.
  split; [reflexivity|].
  exact (proj1 (proj2 (panel_always_offers_a_way Scenario.pixelChrome PWA.initial)
                  (InstallPWAButton.mkPanel false true false) eq_refl)).
Defined.

(** Bengaluru was detected earlier; the page is opened again. *)
Lemma saved_location_restored_on_mount_witness :
  LocationFilter.customerLocation (LocationFilter.ui
    (exec (LocationFilter.onMount Scenario.parse false
             (LocationFilter.Resolved Scenario.servicesFound))
          (LocationFilter.mkWorld Scenario.freshState
             (LocationFilter.localStorage Scenario.bengaluruDetected) [])))
  = Some Scenario.bengaluru.
Proof.
  exact (proj1 (proj1 (saved_location_restored_on_mount
                         Scenario.stringify Scenario.parse Scenario.bengaluru
                         (LocationFilter.Resolved Scenario.servicesFound)
                         (LocationFilter.mkWorld Scenario.freshState
                            (LocationFilter.localStorage Scenario.bengaluruDetected) [])
                         eq_refl eq_refl eq_refl))).
Defined.

(** A signed-out customer opens the page for the first time. *)
Lemma nothing_restored_without_saved_location_witness :
  LocationFilter.trace
    (exec (LocationFilter.onMount Scenario.parse false
             (LocationFilter.Resolved Scenario.servicesFound))
          Scenario.signedOut) = [].
Proof.
  exact (proj1 (proj1 (nothing_restored_without_saved_location
                         Scenario.parse false
                         (LocationFilter.Resolved Scenario.servicesFound)
                         Scenario.signedOut) eq_refl)).
Defined.

(** Reopening the page with Bengaluru saved posts the check twice. *)
Lemma mount_checks_availability_again_witness :
  length (List.filter LocationFilter.isAvailabilityCall
            (LocationFilter.trace
               (exec (LocationFilter.onMount Scenario.parse false
                        (LocationFilter.Resolved Scenario.servicesFound) ;;
                      LocationFilter.onCustomerLocationChange
                        (LocationFilter.Resolved Scenario.servicesFound))
                     (LocationFilter.mkWorld Scenario.freshState
                        (LocationFilter.localStorage Scenario.bengaluruDetected) []))))
  = 2.
Proof.
  exact (proj1 (proj1 (mount_checks_availability_again
                         Scenario.stringify Scenario.parse Scenario.bengaluru
                         (LocationFilter.Resolved Scenario.servicesFound)
                         (LocationFilter.Resolved Scenario.servicesFound)
                         (LocationFilter.mkWorld Scenario.freshState
                            (LocationFilter.localStorage Scenario.bengaluruDetected) [])
                         eq_refl eq_refl eq_refl eq_refl))).
Defined.

(** The typed address is found and the check for it has run. *)
Lemma spinners_turned_off_witness :
  LocationFilter.isCheckingAvailability (LocationFilter.ui
    (exec (LocationFilter.handleManualAddressSubmit
             Scenario.stringify Scenario.parseFloat
             (LocationFilter.Resolved [Scenario.searchHit]) ;;
           LocationFilter.onCustomerLocationChange
             (LocationFilter.Resolved Scenario.servicesFound))
          Scenario.typedAddress)) = false.
Proof.
  exact (proj2 (proj2 (proj2 (spinners_turned_off
                                Scenario.stringify Scenario.parseFloat
                                Scenario.typedAddress)))
               Scenario.searchHit []
               (LocationFilter.Resolved Scenario.servicesFound) eq_refl).
Defined.

(** The reverse lookup knows the street, the city and the pincode, but no
    house number. *)
Lemma prefill_without_house_number_is_refused_witness :
  let addr :=
    LocationFilter.mkNominatimAddress (Some "MG Road") None None None None None
      (Some "Bengaluru") None None None (Some "Karnataka") (Some "560001") in
  let found := LocationFilter.mkReverseResult (Some "MG Road, Bengaluru") (Some addr) in
  LocationFilter.addressErrors (LocationFilter.ui
    (exec (LocationFilter.onSaveAndContinue Scenario.stringify
             (LocationFilter.Resolved tt)
             (LocationFilter.Resolved Scenario.servicesFound))
          (exec (LocationFilter.detectCurrentLocation Scenario.stringify
                   (LocationFilter.Resolved Scenario.bengaluru)
                   (LocationFilter.Resolved found))
                Scenario.signedIn)))
    !! "houseNumber" = Some "House/Flat/Block No. is required".
Proof.
  intros addr found.
  exact (proj2 (proj2 (prefill_without_house_number_is_refused
                         Scenario.stringify Scenario.bengaluru found addr
                         (LocationFilter.Resolved tt)
                         (LocationFilter.Resolved Scenario.servicesFound)
                         Scenario.signedIn eq_refl eq_refl))).
Defined.

(** A complete address is saved for a signed-in customer. *)
Lemma save_writes_only_delivery_address_witness :
  LocationFilter.localStorage
    (exec (LocationFilter.saveLocationToBackend Scenario.stringify
             (LocationFilter.Resolved tt) Scenario.bengaluru
             (Some Scenario.completeAddress))
          Scenario.signedIn)
    !! "deliveryAddress"
  = Some (Scenario.stringify
            (LocationFilter.detailedAddressOf Scenario.bengaluru
               Scenario.completeAddress)).
Proof.
  exact (proj2 (proj2 (proj2 (proj2 (proj2
           (save_writes_only_delivery_address Scenario.stringify
              (LocationFilter.Resolved tt) Scenario.bengaluru
              (Some Scenario.completeAddress) Scenario.signedIn)))))
           eq_refl Scenario.completeAddress tt eq_refl eq_refl).
Defined.

(** The manual input was opened and submitted empty. *)
Lemma blank_manual_address_not_geocoded_witness :
  LocationFilter.trace
    (exec (LocationFilter.handleManualAddressSubmit
             Scenario.stringify Scenario.parseFloat
             (LocationFilter.Resolved [Scenario.searchHit]))
          Scenario.signedIn) = [].
Proof.
  exact (f_equal LocationFilter.trace
           (blank_manual_address_not_geocoded
              Scenario.stringify Scenario.parseFloat
              (LocationFilter.Resolved [Scenario.searchHit])
              Scenario.signedIn eq_refl)).
Defined.

(** "Confirm" with nothing selected on the map. *)
Lemma click_then_confirm_witness :
  exec LocationFilter.confirmMapLocation Scenario.signedIn = Scenario.signedIn.
Proof.
  exact (proj1 (click_then_confirm Scenario.toFixed
                  (LocationFilter.mkLatLng 12.25 76.5)
                  (LocationFilter.Rejected tt) Scenario.signedIn) eq_refl).
Defined.

(** The session has expired when the map page asks for washermen. *)
Lemma fetch_maps_status_to_message_witness :
  NearbyMap.error (NearbyMap.ui
    (exec (NearbyMap.fetchNearbyWashermen
             (LocationFilter.Resolved Scenario.unauthorized) 12.5 77.5)
          Scenario.mapPage))
  = Some "Please sign in to view nearby washermen".
Proof.
  exact (proj1 (fetch_maps_status_to_message Scenario.unauthorized
                  12.5%float 77.5%float Scenario.mapPage eq_refl)).
Defined.

(** Another date is chosen and nobody is available on it. *)
Lemma empty_answer_keeps_stale_list_witness :
  NearbySlots.washermen (NearbySlots.ui
    (exec (NearbySlots.handleDateChange "2026-01-16"
             (LocationFilter.Resolved
                (NearbySlots.mkResponse true 200 (LocationFilter.Resolved []))))
          Scenario.slotsPage))
  = [Scenario.ravi].
Proof.
  refine (proj1 (empty_answer_keeps_stale_list "2026-01-16" 200
                   Scenario.slotsPage (NearbySlots.mkLatLng 12.5 77.5)
                   eq_refl _)).
  discriminate.
Defined.

